(** * SimplexSolver.solve (src/simplex_method.py): a shallow embedding

    The solver is a NumPy program.  Its arrays are modelled as NumPy has
    them: an [ndarray] object is a shape together with a reference to a
    data buffer of binary64 floats held in a store, so that a view
    ([b.reshape(-1, 1)]) shares the buffer of its base array.  Every
    NumPy call of [solve] reads buffers of the store and allocates a new
    one; exceptions carry the line of [solve] that raised them; the
    [while True] loop takes fuel.

    Floats are Rocq's primitive binary64 floats, which are the IEEE 754
    doubles of NumPy's float64.  The arrays are assumed to be C-contiguous
    float64 arrays.  NumPy's floating-point error state is the default one
    ([np.seterr]: divide, over and invalid warn, under is ignored), and
    the store records every RuntimeWarning that is handed to Python's
    warnings module. *)

From Stdlib Require Import String List Arith ZArith Lia Bool.
From Stdlib Require Import PrimFloat Floats.
Import ListNotations.

Set Warnings "-inexact-float".

(* ------------------------------------------------------------------ *)
(** ** Python values, exceptions and outcomes *)

Module Py.

(** An exception as [solve]'s caller sees it: its class name and the
    line of [solve] in the traceback. *)
Record exception := mk_exception { exc_type : string; exc_line : nat }.

Definition ValueError (line : nat) : exception := mk_exception "ValueError" line.
Definition IndexError (line : nat) : exception := mk_exception "IndexError" line.

(** The values a Python function can hand back, as far as this program
    is concerned: None, or a dictionary from field names to numbers,
    strings and sequences of numbers. *)
Inductive pyfield :=
| PyInt (n : nat)
| PyFloat (x : float)
| PyStr (s : string)
| PySeq (l : list float).

Inductive pyvalue :=
| PyNone
| PyDict (items : list (string * pyfield)).

Definition is_dict (v : pyvalue) : bool :=
  match v with PyDict _ => true | _ => false end.

(** What a call does: it returns, it raises, or it is still running when
    the fuel is spent.  [Fault] is no Python behaviour: it marks a
    reference that the store does not hold (an ill-formed initial
    store). *)
Inductive outcome (A : Type) :=
| Returned (a : A)
| Raised (e : exception)
| OutOfFuel
| Fault.
Arguments Returned {A} a.
Arguments Raised {A} e.
Arguments OutOfFuel {A}.
Arguments Fault {A}.

End Py.
Import Py.

(* ------------------------------------------------------------------ *)
(** ** The store *)

Definition loc := nat.
Definition buffer := list float.

(** An ndarray object: a C-contiguous window, from offset 0, onto a buffer. *)
Record ndarray := mk_ndarray { a_data : loc; a_shape : list nat }.

(** class SimplexSolver: its only attribute is [verbose]. *)
Record SimplexSolver := mk_SimplexSolver { verbose : bool }.

(** The floating-point errors that NumPy reports. *)
Inductive fp_error := DivideByZero | Overflow | Invalid.

(** A RuntimeWarning of NumPy: the error and the line of [solve] at which
    it is issued. *)
Record warning := RuntimeWarning { fp_what : fp_error; warn_line : nat }.

Record world := mk_world {
  buffers : list buffer;          (* data buffers of the live arrays *)
  solvers : list SimplexSolver;   (* SimplexSolver objects *)
  stdout : list string;           (* what has been printed *)
  warnings : list warning         (* what was handed to the warnings module *)
}.

Definition M (A : Type) : Type := world -> outcome A * world.

Definition ret {A} (a : A) : M A := fun w => (Returned a, w).

Definition bind {A B} (m : M A) (k : A -> M B) : M B :=
  fun w =>
    match m w with
    | (Returned a, w') => k a w'
    | (Raised e, w') => (Raised e, w')
    | (OutOfFuel, w') => (OutOfFuel, w')
    | (Fault, w') => (Fault, w')
    end.

Definition raise {A} (e : exception) : M A := fun w => (Raised e, w).
Definition out_of_fuel {A} : M A := fun w => (OutOfFuel, w).

Declare Scope py_scope.
Delimit Scope py_scope with py.
Notation "x <- m ;; k" := (bind m (fun x => k))
  (at level 61, m at next level, right associativity) : py_scope.
Notation "' pat <- m ;; k" := (bind m (fun x => match x with pat => k end))
  (at level 61, pat pattern, m at next level, right associativity) : py_scope.
Local Open Scope py_scope.

(** Reading the buffer behind an array. *)
Definition load (a : ndarray) : M buffer :=
  fun w =>
    match nth_error (buffers w) (a_data a) with
    | Some d => (Returned d, w)
    | None => (Fault, w)
    end.

(** The store with one more buffer. *)
Definition push (w : world) (d : buffer) : world :=
  mk_world (buffers w ++ [d]) (solvers w) (stdout w) (warnings w).

(** A new buffer: the next free location; nothing that exists is touched. *)
Definition alloc (d : buffer) : M loc :=
  fun w =>
    (Returned (length (buffers w)), push w d).

(** The store with more warnings issued. *)
Definition warned (w : world) (l : list warning) : world :=
  mk_world (buffers w) (solvers w) (stdout w) (warnings w ++ l).

(** warnings.warn, once for each warning of [l]. *)
Definition warn (l : list warning) : M unit :=
  fun w => (Returned tt, warned w l).

Definition new_array (shape : list nat) (d : buffer) : M ndarray :=
  l <- alloc d ;; ret (mk_ndarray l shape).

Fixpoint load_all (arrs : list ndarray) : M (list buffer) :=
  match arrs with
  | [] => ret []
  | a :: rest => d <- load a ;; ds <- load_all rest ;; ret (d :: ds)
  end.

(** SimplexSolver(verbose): [__init__] stores the flag on a new object. *)
Definition SimplexSolver_init (verbose : bool) : M loc :=
  fun w =>
    (Returned (length (solvers w)),
     mk_world (buffers w) (solvers w ++ [mk_SimplexSolver verbose]) (stdout w)
              (warnings w)).

(* ------------------------------------------------------------------ *)
(** ** The NumPy calls that solve makes *)

Module Numpy.

(** Number of elements of a shape. *)
Definition size (shape : list nat) : nat := fold_right Nat.mul 1 shape.

Definition ndim (a : ndarray) : nat := length (a_shape a).

Definition slice (d : buffer) (start len : nat) : buffer :=
  firstn len (skipn start d).

(** [-c]: a new array, element-wise negation. *)
Definition negative (a : ndarray) : M ndarray :=
  d <- load a ;; new_array (a_shape a) (map PrimFloat.opp d).

(** np.eye(m), row-major. *)
Definition eye_row (m i : nat) : buffer :=
  map (fun j => if Nat.eqb i j then 1%float else 0%float) (seq 0 m).
Definition eye_data (m : nat) : buffer := flat_map (eye_row m) (seq 0 m).
Definition eye (m : nat) : M ndarray := new_array [m; m] (eye_data m).

(** np.zeros(m). *)
Definition zeros (m : nat) : M ndarray := new_array [m] (repeat 0%float m).

(** a.reshape(-1, 1): a view, the buffer is shared. *)
Definition reshape_column (a : ndarray) : ndarray :=
  mk_ndarray (a_data a) [size (a_shape a); 1].

Definition atleast_1d (a : ndarray) : ndarray :=
  match a_shape a with
  | [] => mk_ndarray (a_data a) [1]
  | _ => a
  end.

Definition atleast_2d (a : ndarray) : ndarray :=
  match a_shape a with
  | [] => mk_ndarray (a_data a) [1; 1]
  | [k] => mk_ndarray (a_data a) [1; k]
  | _ => a
  end.

Definition shape_eqb (s t : list nat) : bool :=
  if list_eq_dec Nat.eq_dec s t then true else false.

(** The shapes agree outside [axis]. *)
Definition same_except (axis : nat) (s t : list nat) : bool :=
  shape_eqb (firstn axis s) (firstn axis t)
  && shape_eqb (skipn (S axis) s) (skipn (S axis) t).

(** Row-major data of the concatenation along [axis]: for every index
    before the axis, the chunks of the arrays one after the other. *)
Definition concat_data (axis : nat) (parts : list (list nat * buffer)) (outer : nat)
  : buffer :=
  flat_map
    (fun o =>
       flat_map
         (fun p => let chunk := size (skipn axis (fst p)) in
                   slice (snd p) (o * chunk) chunk)
         parts)
    (seq 0 outer).

(** np.concatenate(arrs, axis), called at [line]; the checks come in
    NumPy's order, and all of them before any data is read. *)
Definition concatenate (line : nat) (arrs : list ndarray) (axis : nat) : M ndarray :=
  match arrs with
  | [] => raise (ValueError line)     (* need at least one array *)
  | a0 :: _ =>
      let s0 := a_shape a0 in
      if Nat.eqb (ndim a0) 0 then
        raise (ValueError line)       (* zero-dimensional arrays *)
      else if negb (Nat.ltb axis (ndim a0)) then
        raise (mk_exception "AxisError" line)
      else if negb (forallb (fun a => Nat.eqb (ndim a) (ndim a0)) arrs) then
        raise (ValueError line)       (* not the same number of dimensions *)
      else if negb (forallb (fun a => same_except axis s0 (a_shape a)) arrs) then
        raise (ValueError line)       (* dimensions off the axis differ *)
      else
        ds <- load_all arrs ;;
        new_array
          (firstn axis s0
             ++ [list_sum (map (fun a => nth axis (a_shape a) 0) arrs)]
             ++ skipn (S axis) s0)
          (concat_data axis (combine (map a_shape arrs) ds) (size (firstn axis s0)))
  end.

(** np.hstack(tup) *)
Definition hstack (line : nat) (tup : list ndarray) : M ndarray :=
  let arrs := map atleast_1d tup in
  match arrs with
  | a0 :: _ => if Nat.eqb (ndim a0) 1 then concatenate line arrs 0
               else concatenate line arrs 1
  | [] => concatenate line arrs 1
  end.

(** np.vstack(tup) *)
Definition vstack (line : nat) (tup : list ndarray) : M ndarray :=
  concatenate line (map atleast_2d tup) 0.

(** The floating-point errors that the float64 division x / y reports in
    the default error state: a division of a finite non-zero number by
    zero, an overflow (finite operands, infinite quotient), an invalid
    operation (0/0, inf/inf).  NaN operands pass through silently and
    underflow is ignored. *)
Definition divide_errors (x y : float) : list fp_error :=
  if PrimFloat.is_nan x || PrimFloat.is_nan y then []
  else if PrimFloat.is_zero y then
    if PrimFloat.is_zero x then [Invalid]
    else if PrimFloat.is_infinity x then []
    else [DivideByZero]
  else if PrimFloat.is_infinity x && PrimFloat.is_infinity y then [Invalid]
  else if PrimFloat.is_finite x && PrimFloat.is_finite y
          && PrimFloat.is_infinity (PrimFloat.div x y) then [Overflow]
  else [].

(** x / y on two np.float64 scalars, at [line]: the quotient, and a
    RuntimeWarning for each error reported. *)
Definition true_divide (line : nat) (x y : float) : M float :=
  _ <- warn (map (fun e => RuntimeWarning e line) (divide_errors x y)) ;;
  ret (PrimFloat.div x y).

(** np.all(v >= -1e-10), on the values read; a comparison with a NaN is
    false and reports nothing. *)
Definition all_ge (bound : float) (v : buffer) : bool :=
  forallb (fun x => PrimFloat.leb bound x) v.

(** np.argmin of a 1-D float64 array: the first minimum; a NaN, once
    met, is the minimum.  [best] is the running minimum at index [at_],
    [i] the index of the head of [v]. *)
Fixpoint argmin_from (best : float) (at_ i : nat) (v : buffer) : nat :=
  match v with
  | [] => at_
  | x :: rest =>
      if PrimFloat.leb best x then argmin_from best at_ (S i) rest
      else if PrimFloat.is_nan x then i
      else argmin_from x i (S i) rest
  end.

Definition argmin (line : nat) (v : buffer) : M nat :=
  match v with
  | [] => raise (ValueError line)
  | x :: rest => if PrimFloat.is_nan x then ret 0 else ret (argmin_from x 0 1 rest)
  end.

End Numpy.

(* ------------------------------------------------------------------ *)
(** ** SimplexSolver.solve *)

Module Simplex.

Definition tolerance : float := 1e-10%float.

(** m, n = A.shape *)
Definition unpack_shape (line : nat) (A : ndarray) : M (nat * nat) :=
  match a_shape A with
  | [m; n] => ret (m, n)
  | _ => raise (ValueError line)
  end.

(** tableau[-1, :-1], read at [line]. *)
Definition objective_row (line : nat) (tableau : ndarray) : M buffer :=
  match a_shape tableau with
  | [R; C] =>
      if Nat.eqb R 0 then raise (IndexError line)
      else d <- load tableau ;; ret (Numpy.slice d ((R - 1) * C) (C - 1))
  | _ => raise (IndexError line)
  end.

(** tableau[i, j] for a 2-D tableau. *)
Definition item (line : nat) (tableau : ndarray) (i j : nat) : M float :=
  match a_shape tableau with
  | [R; C] =>
      if Nat.ltb i R && Nat.ltb j C then
        d <- load tableau ;;
        match nth_error d (i * C + j) with
        | Some x => ret x
        | None => fun w => (Fault, w)
        end
      else raise (IndexError line)
  | _ => raise (IndexError line)
  end.

(** tableau[i, -1] *)
Definition item_last (line : nat) (tableau : ndarray) (i : nat) : M float :=
  match a_shape tableau with
  | [R; C] => if Nat.eqb C 0 then raise (IndexError line)
              else item line tableau i (C - 1)
  | _ => raise (IndexError line)
  end.

(** Lines 57-62: [for i in range(m)], over the rows still to visit,
    appending to [ratios]. *)
Fixpoint ratio_rows (rows : list nat) (tableau : ndarray) (entering : nat)
         (ratios : list (float * nat)) : M (list (float * nat)) :=
  match rows with
  | [] => ret ratios
  | i :: rest =>
      a <- item 58 tableau i entering ;;
      if PrimFloat.ltb tolerance a then
        rhs <- item_last 59 tableau i ;;
        a' <- item 59 tableau i entering ;;
        ratio <- Numpy.true_divide 59 rhs a' ;;
        ratio_rows rest tableau entering (ratios ++ [(ratio, i)])
      else
        ratio_rows rest tableau entering (ratios ++ [(PrimFloat.infinity, i)])
  end.

(** The locals of [solve] that are alive when the loop is left. *)
Record locals := mk_locals { tableau_of : ndarray; iterations_of : nat }.

(** Lines 45-62: [while True].  One unit of fuel per iteration. *)
Fixpoint pivot_loop (fuel : nat) (m : nat) (tableau : ndarray) (iterations : nat)
  : M locals :=
  match fuel with
  | 0 => out_of_fuel
  | S fuel' =>
      let iterations := iterations + 1 in
      costs <- objective_row 49 tableau ;;
      if Numpy.all_ge (PrimFloat.opp tolerance) costs then
        ret (mk_locals tableau iterations)                         (* break *)
      else
        costs <- objective_row 53 tableau ;;
        entering <- Numpy.argmin 53 costs ;;
        ratios <- ratio_rows (seq 0 m) tableau entering [] ;;      (* line 56 on *)
        pivot_loop fuel' m tableau iterations
  end.

(** Lines 27-41: standard form and initial tableau. *)
Definition initial_tableau (c A b : ndarray) (maximize : bool) : M (nat * ndarray) :=
  c <- (if maximize then Numpy.negative c else ret c) ;;
  '(m, n) <- unpack_shape 31 A ;;
  I <- Numpy.eye m ;;
  A_std <- Numpy.hstack 32 [A; I] ;;
  z <- Numpy.zeros m ;;
  c_std <- Numpy.hstack 33 [c; z] ;;
  tableau <- Numpy.hstack 38 [A_std; Numpy.reshape_column b] ;;
  cost_row <- Numpy.hstack 39 [c_std] ;;
  tableau <- Numpy.vstack 41 [tableau; cost_row] ;;
  ret (m, tableau).

(** The body of [solve], up to the point where the loop is left. *)
Definition solve_locals (fuel : nat) (self : loc) (c A b : ndarray) (maximize : bool)
  : M locals :=
  '(m, tableau) <- initial_tableau c A b maximize ;;
  pivot_loop fuel m tableau 0.

(** solve(self, c, A, b, maximize): the text of the function ends with
    the loop, so leaving the loop returns None. *)
Definition solve (fuel : nat) (self : loc) (c A b : ndarray) (maximize : bool)
  : M pyvalue :=
  _ <- solve_locals fuel self c A b maximize ;;
  ret PyNone.

End Simplex.
Import Simplex.

(* ------------------------------------------------------------------ *)
(** ** The buffers that solve allocates, written out

    The data of the arrays of lines 32-41 in terms of the data [dc], [dA]
    and [db] of (the possibly negated) c, of A and of b, and the stores
    that hold them; [k] is the length of c. *)

Module Stages.

(** A_std of line 32: the rows of A, each followed by its row of I_m. *)
Definition A_std_data (m n : nat) (dA : buffer) : buffer :=
  Numpy.concat_data 1 [([m; n], dA); ([m; m], Numpy.eye_data m)] m.

(** c_std of line 33. *)
Definition c_std_data (k m : nat) (dc : buffer) : buffer :=
  Numpy.concat_data 0 [([k], dc); ([m], repeat 0%float m)] 1.

(** tableau of line 38: the rows of A_std, each followed by its entry of b. *)
Definition rows_data (m n : nat) (dA db : buffer) : buffer :=
  Numpy.concat_data 1 [([m; n + m], A_std_data m n dA); ([m; 1], db)] m.

(** cost_row of line 39. *)
Definition cost_row_data (k m : nat) (dc : buffer) : buffer :=
  Numpy.concat_data 0 [([k + m], c_std_data k m dc)] 1.

(** tableau of line 41. *)
Definition tableau_data (k m n : nat) (dc dA db : buffer) : buffer :=
  Numpy.concat_data 0
    [([m; n + m + 1], rows_data m n dA db); ([1; k + m], cost_row_data k m dc)] 1.

(** The store once line 33 is done: I_m, A_std, zeros(m) and c_std are new. *)
Definition after_standard_form (k m n : nat) (dc dA : buffer) (w : world) : world :=
  push (push (push (push w (Numpy.eye_data m)) (A_std_data m n dA))
          (repeat 0%float m)) (c_std_data k m dc).

(** The store once line 39 is done. *)
Definition after_rows (k m n : nat) (dc dA db : buffer) (w : world) : world :=
  push (push (after_standard_form k m n dc dA w) (rows_data m n dA db))
       (cost_row_data k m dc).

(** tableau[-1, :-1] in the data of an R x C tableau. *)
Definition costs_of (d : buffer) (R C : nat) : buffer :=
  Numpy.slice d ((R - 1) * C) (C - 1).

(** The pair that lines 58-62 append for row [i]. *)
Definition ratio_entry (d : buffer) (C entering i : nat) : float * nat :=
  let a := nth (i * C + entering) d 0%float in
  if PrimFloat.ltb tolerance a
  then (PrimFloat.div (nth (i * C + (C - 1)) d 0%float) a, i)
  else (PrimFloat.infinity, i).

(** The warnings that line 59 issues for row [i], and for the rows of one
    pass of lines 57-62. *)
Definition ratio_warnings_of_row (d : buffer) (C entering i : nat) : list warning :=
  let a := nth (i * C + entering) d 0%float in
  if PrimFloat.ltb tolerance a
  then map (fun e => RuntimeWarning e 59)
           (Numpy.divide_errors (nth (i * C + (C - 1)) d 0%float) a)
  else [].

Definition ratio_warnings (d : buffer) (C entering : nat) (rows : list nat)
  : list warning :=
  flat_map (ratio_warnings_of_row d C entering) rows.

(** The entering column of line 53 for the costs [v]. *)
Definition entering_of (v : buffer) : nat :=
  match v with
  | [] => 0
  | x :: rest => if PrimFloat.is_nan x then 0 else Numpy.argmin_from x 0 1 rest
  end.

(** The warnings of [passes] iterations of the loop on an R x C tableau
    with data [d] and [m] constraint rows. *)
Definition loop_warnings (d : buffer) (R C m passes : nat) : list warning :=
  concat (repeat (ratio_warnings d C (entering_of (costs_of d R C)) (seq 0 m)) passes).

End Stages.
Import Stages.

(* ------------------------------------------------------------------ *)
(** ** Concrete stores used below *)

Module Examples.

(** A store that holds c, A and b (in this order) and one solver. *)
Definition store (c A b : buffer) : world :=
  mk_world [c; A; b] [mk_SimplexSolver false] [] [].

Definition vec (l : loc) (n : nat) : ndarray := mk_ndarray l [n].
Definition mat (l : loc) (m n : nat) : ndarray := mk_ndarray l [m; n].

(** Scenario 1 of the spec: c=[3,2], A=[[1,1],[1,0],[0,1]], b=[4,2,3]. *)
Definition w1 : world := store [3; 2]%float [1; 1; 1; 0; 0; 1]%float [4; 2; 3]%float.

(** Scenario 2 of the spec: c=[1,1], A=[[1,-1]], b=[1]. *)
Definition w2 : world := store [1; 1]%float [1; -1]%float [1]%float.

(** c with one entry more than A has columns: c=[1,1,1], A=[[1,1]], b=[1]. *)
Definition w_long : world := store [1; 1; 1]%float [1; 1]%float [1]%float.

(** The same shapes with c=[1,1,0]. *)
Definition w_spin : world := store [1; 1; 0]%float [1; 1]%float [1]%float.

(** b longer than A has rows: c=[1,1], A=[[1,1]], b=[1,2]. *)
Definition w_b : world := store [1; 1]%float [1; 1]%float [1; 2]%float.

(** Scenario 1 with a zero appended to c: c=[3,2,0]. *)
Definition w1_long : world :=
  store [3; 2; 0]%float [1; 1; 1; 0; 0; 1]%float [4; 2; 3]%float.

(** A store that holds one 2 x 4 tableau, [[1,1,1,1],[1,1,1,0]]. *)
Definition w_tableau : world :=
  mk_world [[1; 1; 1; 1; 1; 1; 1; 0]%float] [] [] [].

(** A store that holds the 2 x 4 tableau [[1,1,1,1],[-1,-1,0,0]]. *)
Definition w_negative : world :=
  mk_world [[1; 1; 1; 1; -1; -1; 0; 0]%float] [] [] [].

(** A ratio that overflows: c=[1,0,0], A=[[1e-5,1]], b=[1e308]. *)
Definition w_overflow : world :=
  store [1; 0; 0]%float [1e-5; 1]%float [1e308]%float.

End Examples.
Import Examples.

(* ------------------------------------------------------------------ *)
(** ** What a call may do to the store *)

(** [w'] is [w] with more buffers: every buffer of [w] is where it was
    and holds what it held, the solver objects and the output are the
    same. *)
Definition extends (w w' : world) : Prop :=
  (exists more, buffers w' = buffers w ++ more)
  /\ solvers w' = solvers w
  /\ stdout w' = stdout w.

(** The warnings of [w'] are those of [w] and then RuntimeWarnings of line
    59 only. *)
Definition warns_at_59 (w w' : world) : Prop :=
  exists more,
    warnings w' = warnings w ++ more
    /\ Forall (fun x => warn_line x = 59) more.

Definition warns_only_at_59 {A} (m : M A) : Prop :=
  forall w, warns_at_59 w (snd (m w)).

Definition frame_safe {A} (m : M A) : Prop :=
  forall w, extends w (snd (m w)).

(** [solve] comes to an end: with enough fuel it returns or raises. *)
Definition terminates (self : loc) (c A b : ndarray) (maximize : bool) (w : world)
  : Prop :=
  exists fuel, fst (solve fuel self c A b maximize w) <> OutOfFuel.

(** A computation that looks at the buffers only: from two stores with the
    same buffers it has the same outcome and leaves the same buffers. *)
Definition store_blind {A} (m : M A) : Prop :=
  forall w1 w2, buffers w1 = buffers w2 ->
    fst (m w1) = fst (m w2) /\ buffers (snd (m w1)) = buffers (snd (m w2)).

(** No entry of [v] is a NaN. *)
Definition no_nan (v : buffer) : Prop :=
  forall j, j < length v -> PrimFloat.is_nan (nth j v 0%float) = false.

(* ------------------------------------------------------------------ *)
(** ** The monad and the store *)

Lemma bind_returned {A B} (m : M A) (k : A -> M B) w a w' :
  m w = (Returned a, w') -> bind m k w = k a w'.
Proof. intros H. unfold bind. now rewrite H. Qed.

Lemma bind_raised {A B} (m : M A) (k : A -> M B) w e w' :
  m w = (Raised e, w') -> bind m k w = (Raised e, w').
Proof. intros H. unfold bind. now rewrite H. Qed.

Lemma bind_out_of_fuel {A B} (m : M A) (k : A -> M B) w w' :
  m w = (OutOfFuel, w') -> bind m k w = (OutOfFuel, w').
Proof. intros H. unfold bind. now rewrite H. Qed.

Lemma extends_refl w : extends w w.
Proof. repeat split. exists []. now rewrite app_nil_r. Qed.

Lemma extends_trans w1 w2 w3 : extends w1 w2 -> extends w2 w3 -> extends w1 w3.
Proof.
  intros [[m1 H1] [S1 O1]] [[m2 H2] [S2 O2]]. repeat split.
  - exists (m1 ++ m2). now rewrite H2, H1, app_assoc.
  - congruence.
  - congruence.
Qed.

Lemma extends_push w d : extends w (push w d).
Proof. repeat split. now exists [d]. Qed.

Lemma extends_lookup w w' l d :
  extends w w' -> nth_error (buffers w) l = Some d -> nth_error (buffers w') l = Some d.
Proof.
  intros [[more H] _] E. rewrite H, nth_error_app1; [assumption|].
  apply nth_error_Some. congruence.
Qed.

Create HintDb frame.

Lemma frame_ret {A} (a : A) : frame_safe (ret a).
Proof. intro w. apply extends_refl. Qed.

Lemma frame_raise {A} e : frame_safe (@raise A e).
Proof. intro w. apply extends_refl. Qed.

Lemma frame_out_of_fuel {A} : frame_safe (@out_of_fuel A).
Proof. intro w. apply extends_refl. Qed.

Lemma frame_fault {A} : frame_safe (fun w => (@Fault A, w)).
Proof. intro w. apply extends_refl. Qed.

Lemma frame_bind {A B} (m : M A) (k : A -> M B) :
  frame_safe m -> (forall a, frame_safe (k a)) -> frame_safe (bind m k).
Proof.
  intros Hm Hk w. unfold bind. specialize (Hm w).
  destruct (m w) as [[a| e | | ] w1]; cbn in *; try assumption.
  eapply extends_trans; [eassumption | apply Hk].
Qed.

Lemma frame_load a : frame_safe (load a).
Proof.
  intro w. unfold load. destruct (nth_error _ _); apply extends_refl.
Qed.

Lemma frame_alloc d : frame_safe (alloc d).
Proof. intro w. apply extends_push. Qed.

#[export] Hint Resolve frame_ret frame_raise frame_out_of_fuel frame_fault
  frame_load frame_alloc : frame.

(** Goes through a computation bind by bind. *)
Ltac frame_steps :=
  repeat first
    [ progress auto with frame
    | apply frame_bind; [ | intros ? ]
    | match goal with
      | |- frame_safe (match ?x with _ => _ end) => destruct x
      | |- frame_safe (if ?x then _ else _) => destruct x
      end ].

Lemma frame_warn l : frame_safe (warn l).
Proof. intro w. repeat split. exists []. cbn. now rewrite app_nil_r. Qed.

#[export] Hint Resolve frame_warn : frame.

Lemma frame_true_divide line x y : frame_safe (Numpy.true_divide line x y).
Proof. unfold Numpy.true_divide. frame_steps. Qed.

#[export] Hint Resolve frame_true_divide : frame.

Lemma frame_new_array shape d : frame_safe (new_array shape d).
Proof. unfold new_array. frame_steps. Qed.

Lemma frame_load_all arrs : frame_safe (load_all arrs).
Proof. induction arrs; cbn; frame_steps. Qed.

#[export] Hint Resolve frame_new_array frame_load_all : frame.

Lemma frame_negative a : frame_safe (Numpy.negative a).
Proof. unfold Numpy.negative. frame_steps. Qed.

Lemma frame_eye m : frame_safe (Numpy.eye m).
Proof. unfold Numpy.eye. frame_steps. Qed.

Lemma frame_zeros m : frame_safe (Numpy.zeros m).
Proof. unfold Numpy.zeros. frame_steps. Qed.

Lemma frame_concatenate line arrs axis : frame_safe (Numpy.concatenate line arrs axis).
Proof. unfold Numpy.concatenate. frame_steps. Qed.

#[export] Hint Resolve frame_negative frame_eye frame_zeros frame_concatenate : frame.

Lemma frame_hstack line tup : frame_safe (Numpy.hstack line tup).
Proof. unfold Numpy.hstack. frame_steps. Qed.

Lemma frame_vstack line tup : frame_safe (Numpy.vstack line tup).
Proof. unfold Numpy.vstack. frame_steps. Qed.

Lemma frame_argmin line v : frame_safe (Numpy.argmin line v).
Proof. unfold Numpy.argmin. frame_steps. Qed.

#[export] Hint Resolve frame_hstack frame_vstack frame_argmin : frame.

Lemma frame_unpack_shape line A : frame_safe (unpack_shape line A).
Proof. unfold unpack_shape. frame_steps. Qed.

Lemma frame_objective_row line t : frame_safe (objective_row line t).
Proof. unfold objective_row. frame_steps. Qed.

Lemma frame_item line t i j : frame_safe (item line t i j).
Proof. unfold item. frame_steps. Qed.

#[export] Hint Resolve frame_unpack_shape frame_objective_row frame_item : frame.

Lemma frame_item_last line t i : frame_safe (item_last line t i).
Proof. unfold item_last. frame_steps. Qed.

#[export] Hint Resolve frame_item_last : frame.

Lemma frame_ratio_rows rows t e : forall ratios, frame_safe (ratio_rows rows t e ratios).
Proof. induction rows; intros; cbn; frame_steps. Qed.

#[export] Hint Resolve frame_ratio_rows : frame.

Lemma frame_pivot_loop fuel m t : forall it, frame_safe (pivot_loop fuel m t it).
Proof. induction fuel; intros; cbn; frame_steps. Qed.

Lemma frame_initial_tableau c A b mx : frame_safe (initial_tableau c A b mx).
Proof. unfold initial_tableau. frame_steps. Qed.

#[export] Hint Resolve frame_pivot_loop frame_initial_tableau : frame.

Lemma frame_solve_locals fuel self c A b mx : frame_safe (solve_locals fuel self c A b mx).
Proof. unfold solve_locals. frame_steps. Qed.

#[export] Hint Resolve frame_solve_locals : frame.

(* ------------------------------------------------------------------ *)
(** ** Running the NumPy calls *)

Lemma shape_eqb_refl s : Numpy.shape_eqb s s = true.
Proof. unfold Numpy.shape_eqb. destruct (list_eq_dec _ s s); congruence. Qed.

Lemma shape_eqb_neq s t : s <> t -> Numpy.shape_eqb s t = false.
Proof. intro H. unfold Numpy.shape_eqb. destruct (list_eq_dec _ s t); congruence. Qed.

Arguments Numpy.concat_data : simpl never.
Arguments Numpy.eye_data : simpl never.
Arguments Numpy.size : simpl never.
Arguments Numpy.shape_eqb : simpl never.
Arguments push : simpl never.

Lemma load_run a d w :
  nth_error (buffers w) (a_data a) = Some d -> load a w = (Returned d, w).
Proof. intro H. unfold load. now rewrite H. Qed.

Lemma lookup_push w d l x :
  nth_error (buffers w) l = Some x -> nth_error (buffers (push w d)) l = Some x.
Proof. apply extends_lookup, extends_push. Qed.

Lemma lookup_new w d : nth_error (buffers (push w d)) (length (buffers w)) = Some d.
Proof.
  unfold push; cbn. rewrite nth_error_app2 by lia. now rewrite Nat.sub_diag.
Qed.

Lemma negative_run l s d w :
  nth_error (buffers w) l = Some d ->
  Numpy.negative (mk_ndarray l s) w
  = (Returned (mk_ndarray (length (buffers w)) s), push w (map PrimFloat.opp d)).
Proof.
  intro H. unfold Numpy.negative.
  erewrite bind_returned by (apply load_run; exact H). reflexivity.
Qed.

Lemma hstack_2d line lA lB m n k dA dB w :
  nth_error (buffers w) lA = Some dA ->
  nth_error (buffers w) lB = Some dB ->
  Numpy.hstack line [mk_ndarray lA [m; n]; mk_ndarray lB [m; k]] w
  = (Returned (mk_ndarray (length (buffers w)) [m; n + k]),
     push w (Numpy.concat_data 1 [([m; n], dA); ([m; k], dB)] m)).
Proof.
  intros HA HB. unfold Numpy.hstack, Numpy.concatenate. cbn.
  unfold Numpy.same_except. cbn [firstn skipn].
  rewrite !shape_eqb_refl. cbn.
  unfold bind, load. cbn. rewrite HA, HB. cbn.
  unfold Numpy.size; cbn. now rewrite Nat.add_0_r, Nat.mul_1_r.
Qed.

Lemma hstack_2d_rows line lA lB m m' n k w :
  m <> m' ->
  Numpy.hstack line [mk_ndarray lA [m; n]; mk_ndarray lB [m'; k]] w
  = (Raised (ValueError line), w).
Proof.
  intros Hm. unfold Numpy.hstack, Numpy.concatenate. cbn.
  unfold Numpy.same_except. cbn [firstn skipn].
  rewrite !shape_eqb_refl, (shape_eqb_neq [m] [m']) by congruence. reflexivity.
Qed.

Lemma hstack_1d line l1 l2 k m d1 d2 w :
  nth_error (buffers w) l1 = Some d1 ->
  nth_error (buffers w) l2 = Some d2 ->
  Numpy.hstack line [mk_ndarray l1 [k]; mk_ndarray l2 [m]] w
  = (Returned (mk_ndarray (length (buffers w)) [k + m]),
     push w (Numpy.concat_data 0 [([k], d1); ([m], d2)] 1)).
Proof.
  intros H1 H2. unfold Numpy.hstack, Numpy.concatenate. cbn.
  unfold Numpy.same_except. cbn [firstn skipn].
  rewrite !shape_eqb_refl. cbn.
  unfold bind, load. cbn. rewrite H1, H2. cbn.
  now rewrite Nat.add_0_r.
Qed.

Lemma hstack_single line l k d w :
  nth_error (buffers w) l = Some d ->
  Numpy.hstack line [mk_ndarray l [k]] w
  = (Returned (mk_ndarray (length (buffers w)) [k]),
     push w (Numpy.concat_data 0 [([k], d)] 1)).
Proof.
  intros H1. unfold Numpy.hstack, Numpy.concatenate. cbn.
  unfold Numpy.same_except. cbn [firstn skipn].
  rewrite !shape_eqb_refl. cbn.
  unfold bind, load. cbn. rewrite H1. cbn.
  now rewrite Nat.add_0_r.
Qed.

Lemma vstack_row line lT lr R C k dT dr w :
  C = k ->
  nth_error (buffers w) lT = Some dT ->
  nth_error (buffers w) lr = Some dr ->
  Numpy.vstack line [mk_ndarray lT [R; C]; mk_ndarray lr [k]] w
  = (Returned (mk_ndarray (length (buffers w)) [R + 1; C]),
     push w (Numpy.concat_data 0 [([R; C], dT); ([1; k], dr)] 1)).
Proof.
  intros <- H1 H2. unfold Numpy.vstack, Numpy.concatenate. cbn.
  unfold Numpy.same_except. cbn [firstn skipn].
  rewrite !shape_eqb_refl. cbn.
  unfold bind, load. cbn. rewrite H1, H2. cbn.
  reflexivity.
Qed.

Lemma vstack_row_columns line lT lr R C k w :
  C <> k ->
  Numpy.vstack line [mk_ndarray lT [R; C]; mk_ndarray lr [k]] w
  = (Raised (ValueError line), w).
Proof.
  intros Hm. unfold Numpy.vstack, Numpy.concatenate. cbn.
  unfold Numpy.same_except. cbn [firstn skipn].
  rewrite !shape_eqb_refl, (shape_eqb_neq [C] [k]) by congruence. reflexivity.
Qed.

Create HintDb store.
#[export] Hint Resolve lookup_push lookup_new : store.

Ltac lookup := cbn [a_data]; eauto 10 with store.
Ltac run_with L := erewrite bind_returned by (apply L; lookup); cbv beta iota.

Lemma bind_ret {A B} (a : A) (k : A -> M B) w : bind (ret a) k w = k a w.
Proof. reflexivity. Qed.

Lemma eye_run m w :
  Numpy.eye m w
  = (Returned (mk_ndarray (length (buffers w)) [m; m]), push w (Numpy.eye_data m)).
Proof. reflexivity. Qed.

Lemma zeros_run m w :
  Numpy.zeros m w
  = (Returned (mk_ndarray (length (buffers w)) [m]), push w (repeat 0%float m)).
Proof. reflexivity. Qed.

Lemma unpack_shape_run line l m n w :
  unpack_shape line (mk_ndarray l [m; n]) w = (Returned (m, n), w).
Proof. reflexivity. Qed.

Lemma initial_tableau_maximize lc s A b dc w :
  nth_error (buffers w) lc = Some dc ->
  initial_tableau (mk_ndarray lc s) A b true w
  = initial_tableau (mk_ndarray (length (buffers w)) s) A b false
      (push w (map PrimFloat.opp dc)).
Proof.
  intro H. unfold initial_tableau.
  run_with negative_run. reflexivity.
Qed.

Lemma initial_tableau_run lc lA lb k m n sb dc dA db w :
  nth_error (buffers w) lc = Some dc ->
  nth_error (buffers w) lA = Some dA ->
  nth_error (buffers w) lb = Some db ->
  initial_tableau (mk_ndarray lc [k]) (mk_ndarray lA [m; n]) (mk_ndarray lb sb) false w
  = if negb (Nat.eqb (Numpy.size sb) m) then
      (Raised (ValueError 38), after_standard_form k m n dc dA w)
    else if negb (Nat.eqb k (n + 1)) then
      (Raised (ValueError 41), after_rows k m n dc dA db w)
    else
      (Returned (m, mk_ndarray (length (buffers (after_rows k m n dc dA db w)))
                               [m + 1; n + m + 1]),
       push (after_rows k m n dc dA db w) (tableau_data k m n dc dA db)).
Proof.
  intros Hc HA Hb. unfold initial_tableau.
  cbv iota. rewrite bind_ret. run_with unpack_shape_run.
  run_with eye_run. run_with hstack_2d.
  run_with zeros_run. run_with hstack_1d.
  unfold Numpy.reshape_column; cbn [a_data a_shape].
  destruct (Nat.eqb_spec (Numpy.size sb) m) as [E|E]; cbn [negb].
  - subst m. run_with hstack_2d.
    run_with hstack_single.
    destruct (Nat.eqb_spec k (n + 1)) as [E|E]; cbn [negb].
    + subst k.
      erewrite bind_returned by (apply vstack_row; [lia | lookup ..]).
      reflexivity.
    + erewrite bind_raised; [reflexivity|].
      apply vstack_row_columns. lia.
  - erewrite bind_raised; [reflexivity|].
    apply hstack_2d_rows. congruence.
Qed.

(** *** Buffers *)

Lemma size_1 n : Numpy.size [n] = n.
Proof. unfold Numpy.size; cbn. lia. Qed.

Lemma size_2 m n : Numpy.size [m; n] = m * n.
Proof. unfold Numpy.size; cbn. lia. Qed.

Lemma slice_length d s l : s + l <= length d -> length (Numpy.slice d s l) = l.
Proof.
  intro H. unfold Numpy.slice. rewrite firstn_length_le; [reflexivity|].
  rewrite length_skipn. lia.
Qed.

Lemma slice_all d : Numpy.slice d 0 (length d) = d.
Proof. unfold Numpy.slice; cbn. apply firstn_all. Qed.

Lemma slice_app_l d1 d2 : Numpy.slice (d1 ++ d2) 0 (length d1) = d1.
Proof.
  unfold Numpy.slice; cbn. rewrite firstn_app, Nat.sub_diag, firstn_all; cbn.
  apply app_nil_r.
Qed.

Lemma slice_app_r d1 d2 s l :
  Numpy.slice (d1 ++ d2) (length d1 + s) l = Numpy.slice d2 s l.
Proof.
  unfold Numpy.slice. rewrite skipn_app.
  replace (length d1 + s - length d1) with s by lia.
  rewrite skipn_all2 by lia. reflexivity.
Qed.

Lemma slice_one d i : i < length d -> Numpy.slice d i 1 = [nth i d 0%float].
Proof.
  revert i. induction d as [|x d IH]; intros i H; cbn in H; [lia|].
  destruct i; [reflexivity|]. apply IH. lia.
Qed.

Section Rows.
Variable f : nat -> buffer.
Variable C : nat.

Lemma flat_map_rows_length m : forall s,
  (forall j, s <= j < s + m -> length (f j) = C) ->
  length (flat_map f (seq s m)) = m * C.
Proof.
  induction m as [|m IH]; intros s H; cbn; [reflexivity|].
  rewrite length_app, IH, H by (intros; try apply H; lia). reflexivity.
Qed.

Lemma flat_map_row m : forall s i,
  i < m ->
  (forall j, s <= j < s + m -> length (f j) = C) ->
  Numpy.slice (flat_map f (seq s m)) (i * C) C = f (s + i).
Proof.
  induction m as [|m IH]; intros s i Hi H; [lia|]. cbn [seq flat_map].
  assert (Hs : length (f s) = C) by (apply H; lia).
  destruct i as [|i].
  - cbn [Nat.mul]. rewrite Nat.add_0_r, <- Hs. apply slice_app_l.
  - replace (S i * C) with (length (f s) + i * C) by (cbn; lia).
    rewrite slice_app_r, IH by (intros; try apply H; lia).
    f_equal. lia.
Qed.
End Rows.

Lemma eye_row_length m i : length (Numpy.eye_row m i) = m.
Proof. unfold Numpy.eye_row. now rewrite length_map, length_seq. Qed.

Lemma eye_data_length m : length (Numpy.eye_data m) = m * m.
Proof.
  unfold Numpy.eye_data. apply flat_map_rows_length. intros; apply eye_row_length.
Qed.

Lemma eye_data_row m i :
  i < m -> Numpy.slice (Numpy.eye_data m) (i * m) m = Numpy.eye_row m i.
Proof.
  intro H. unfold Numpy.eye_data.
  rewrite flat_map_row by (auto using eye_row_length). reflexivity.
Qed.

(** Joining two matrices side by side, row by row. *)
Lemma concat_columns m n k dA dB :
  Numpy.concat_data 1 [([m; n], dA); ([m; k], dB)] m
  = flat_map (fun i => Numpy.slice dA (i * n) n ++ Numpy.slice dB (i * k) k) (seq 0 m).
Proof.
  unfold Numpy.concat_data. apply flat_map_ext. intro i.
  cbn [flat_map fst snd skipn]. now rewrite !size_1, app_nil_r.
Qed.

Lemma row_slice_length d m n i :
  length d = m * n -> i < m -> length (Numpy.slice d (i * n) n) = n.
Proof. intros H Hi. apply slice_length. nia. Qed.

Lemma concat_columns_length m n k dA dB :
  length dA = m * n -> length dB = m * k ->
  length (Numpy.concat_data 1 [([m; n], dA); ([m; k], dB)] m) = m * (n + k).
Proof.
  intros HA HB. rewrite concat_columns.
  apply flat_map_rows_length. intros j Hj.
  rewrite length_app, (row_slice_length dA m), (row_slice_length dB m) by (auto; lia).
  reflexivity.
Qed.

Lemma concat_columns_row m n k dA dB i :
  length dA = m * n -> length dB = m * k -> i < m ->
  Numpy.slice (Numpy.concat_data 1 [([m; n], dA); ([m; k], dB)] m) (i * (n + k)) (n + k)
  = Numpy.slice dA (i * n) n ++ Numpy.slice dB (i * k) k.
Proof.
  intros HA HB Hi. rewrite concat_columns.
  rewrite flat_map_row; [reflexivity | assumption |].
  intros j Hj.
  rewrite length_app, (row_slice_length dA m), (row_slice_length dB m) by (auto; lia).
  reflexivity.
Qed.

(** Joining vectors end to end. *)
Lemma concat_vectors k m d1 d2 :
  length d1 = k -> length d2 = m ->
  Numpy.concat_data 0 [([k], d1); ([m], d2)] 1 = d1 ++ d2.
Proof.
  intros <- <-. unfold Numpy.concat_data. cbn [seq flat_map fst snd skipn Nat.mul].
  now rewrite !size_1, !slice_all, !app_nil_r.
Qed.

Lemma concat_vector k d :
  length d = k -> Numpy.concat_data 0 [([k], d)] 1 = d.
Proof.
  intros <-. unfold Numpy.concat_data. cbn [seq flat_map fst snd skipn Nat.mul].
  now rewrite !size_1, !slice_all, !app_nil_r.
Qed.

(** Putting a row under a matrix. *)
Lemma concat_below R C k d1 d2 :
  length d1 = R * C -> length d2 = k ->
  Numpy.concat_data 0 [([R; C], d1); ([1; k], d2)] 1 = d1 ++ d2.
Proof.
  intros H1 H2. unfold Numpy.concat_data. cbn [seq flat_map fst snd skipn Nat.mul].
  rewrite !size_2, <- H1, Nat.mul_1_l, <- H2, !slice_all. now rewrite !app_nil_r.
Qed.

(** *** The buffers of lines 27-41 *)

Lemma c_std_data_eq k m dc :
  length dc = k -> c_std_data k m dc = dc ++ repeat 0%float m.
Proof. intro H. apply concat_vectors; [assumption | apply repeat_length]. Qed.

Lemma cost_row_data_eq k m dc :
  length dc = k -> cost_row_data k m dc = dc ++ repeat 0%float m.
Proof.
  intro H. unfold cost_row_data. rewrite c_std_data_eq by assumption.
  apply concat_vector. now rewrite length_app, repeat_length, H.
Qed.

Lemma cost_row_data_length k m dc :
  length dc = k -> length (cost_row_data k m dc) = k + m.
Proof.
  intro H. rewrite cost_row_data_eq by assumption.
  now rewrite length_app, repeat_length, H.
Qed.

Lemma A_std_data_length m n dA :
  length dA = m * n -> length (A_std_data m n dA) = m * (n + m).
Proof. intro H. apply concat_columns_length; [assumption | apply eye_data_length]. Qed.

Lemma rows_data_length m n dA db :
  length dA = m * n -> length db = m ->
  length (rows_data m n dA db) = m * (n + m + 1).
Proof.
  intros HA Hb. apply concat_columns_length; [now apply A_std_data_length | lia].
Qed.

Lemma rows_data_row m n dA db i :
  length dA = m * n -> length db = m -> i < m ->
  Numpy.slice (rows_data m n dA db) (i * (n + m + 1)) (n + m + 1)
  = Numpy.slice dA (i * n) n ++ Numpy.eye_row m i ++ [nth i db 0%float].
Proof.
  intros HA Hb Hi. unfold rows_data.
  rewrite concat_columns_row by (auto using A_std_data_length; lia).
  unfold A_std_data.
  rewrite concat_columns_row by (auto using eye_data_length).
  rewrite eye_data_row, Nat.mul_1_r, slice_one, <- app_assoc by lia.
  reflexivity.
Qed.

Lemma tableau_data_eq k m n dc dA db :
  length dc = k -> length dA = m * n -> length db = m ->
  tableau_data k m n dc dA db = rows_data m n dA db ++ cost_row_data k m dc.
Proof.
  intros Hc HA Hb. apply concat_below.
  - now apply rows_data_length.
  - now apply cost_row_data_length.
Qed.

(** *** The loop *)

Section Loop.
Variables (w : world) (l R C : nat) (d : buffer).
Hypothesis Hd : nth_error (buffers w) l = Some d.
Hypothesis Hlen : length d = R * C.
Let tableau := mk_ndarray l [R; C].

Lemma objective_row_run line :
  1 <= R ->
  objective_row line tableau w = (Returned (costs_of d R C), w).
Proof.
  intro HR. unfold objective_row; cbn [a_shape tableau].
  destruct (Nat.eqb_spec R 0); [lia|].
  erewrite bind_returned by (apply load_run; exact Hd). reflexivity.
Qed.

Lemma item_run line i j :
  i < R -> j < C ->
  item line tableau i j w = (Returned (nth (i * C + j) d 0%float), w).
Proof.
  intros Hi Hj. unfold item; cbn [a_shape tableau].
  destruct (Nat.ltb_spec i R); [|lia]. destruct (Nat.ltb_spec j C); [|lia].
  cbn [andb]. erewrite bind_returned by (apply load_run; exact Hd).
  assert (Hn : i * C + j < length d) by nia.
  destruct (nth_error d (i * C + j)) as [x|] eqn:E.
  - now rewrite (nth_error_nth _ _ _ E).
  - apply nth_error_None in E. lia.
Qed.

Lemma item_last_run line i :
  i < R -> 1 <= C ->
  item_last line tableau i w = (Returned (nth (i * C + (C - 1)) d 0%float), w).
Proof.
  intros Hi HC. unfold item_last; cbn [a_shape tableau].
  destruct (Nat.eqb_spec C 0); [lia|]. apply item_run; lia.
Qed.

Lemma costs_of_length : 1 <= R -> length (costs_of d R C) = C - 1.
Proof. intro HR. apply slice_length. nia. Qed.

Lemma pivot_loop_exit fuel m iterations :
  1 <= R ->
  Numpy.all_ge (PrimFloat.opp tolerance) (costs_of d R C) = true ->
  pivot_loop (S fuel) m tableau iterations w
  = (Returned (mk_locals tableau (iterations + 1)), w).
Proof.
  intros HR Hopt. cbn [pivot_loop].
  erewrite bind_returned by (apply objective_row_run; assumption).
  now rewrite Hopt.
Qed.
End Loop.

Lemma warned_nil w : warned w [] = w.
Proof. destruct w. unfold warned; cbn. now rewrite app_nil_r. Qed.

Lemma warned_warned w a b : warned (warned w a) b = warned w (a ++ b).
Proof. unfold warned; cbn. now rewrite app_assoc. Qed.

Lemma ratio_rows_run l R C d entering rows : forall w ratios,
  nth_error (buffers w) l = Some d ->
  length d = R * C ->
  entering < C ->
  Forall (fun i => i < R) rows ->
  ratio_rows rows (mk_ndarray l [R; C]) entering ratios w
  = (Returned (ratios ++ map (ratio_entry d C entering) rows),
     warned w (ratio_warnings d C entering rows)).
Proof.
  induction rows as [|i rows IH]; intros w ratios Hd Hlen He Hrows.
  - cbn. now rewrite app_nil_r, warned_nil.
  - inversion Hrows as [|? ? Hi Hrest]; subst.
    cbn [ratio_rows map]. unfold ratio_warnings; cbn [flat_map].
    fold (ratio_warnings d C entering rows).
    erewrite bind_returned by (apply (item_run w l R C d); assumption).
    assert (Hr : ratio_entry d C entering i
                 = if PrimFloat.ltb tolerance (nth (i * C + entering) d 0%float)
                   then (PrimFloat.div (nth (i * C + (C - 1)) d 0%float)
                                       (nth (i * C + entering) d 0%float), i)
                   else (PrimFloat.infinity, i)) by reflexivity.
    assert (Hw : ratio_warnings_of_row d C entering i
                 = if PrimFloat.ltb tolerance (nth (i * C + entering) d 0%float)
                   then map (fun e => RuntimeWarning e 59)
                          (Numpy.divide_errors (nth (i * C + (C - 1)) d 0%float)
                                               (nth (i * C + entering) d 0%float))
                   else []) by reflexivity.
    destruct (PrimFloat.ltb tolerance (nth (i * C + entering) d 0%float)).
    + erewrite bind_returned by (apply (item_last_run w l R C d); assumption || lia).
      erewrite bind_returned by (apply (item_run w l R C d); assumption).
      erewrite bind_returned by reflexivity.
      rewrite IH, Hr, Hw by assumption.
      rewrite <- app_assoc, warned_warned. reflexivity.
    + rewrite IH, Hr, Hw by assumption. now rewrite <- app_assoc.
Qed.

Lemma argmin_from_bound v : forall best at_ i,
  at_ < i -> Numpy.argmin_from best at_ i v < i + length v.
Proof.
  induction v as [|x v IH]; intros best at_ i H; cbn; [lia|].
  destruct (PrimFloat.leb best x).
  - specialize (IH best at_ (S i)). lia.
  - destruct (PrimFloat.is_nan x); [lia|].
    specialize (IH x i (S i)). lia.
Qed.

Lemma argmin_run line v w :
  v <> [] -> exists e, Numpy.argmin line v w = (Returned e, w) /\ e < length v.
Proof.
  destruct v as [|x v]; [congruence|]. intros _. cbn.
  destruct (PrimFloat.is_nan x).
  - exists 0. split; [reflexivity | lia].
  - exists (Numpy.argmin_from x 0 1 v). split; [reflexivity|].
    pose proof (argmin_from_bound v x 0 1). lia.
Qed.

Lemma argmin_entering_of line v w :
  v <> [] -> Numpy.argmin line v w = (Returned (entering_of v), w).
Proof.
  destruct v as [|x v]; [congruence|]. intros _. cbn.
  now destruct (PrimFloat.is_nan x).
Qed.

Lemma entering_of_bound v : v <> [] -> entering_of v < length v.
Proof.
  destruct v as [|x v]; [congruence|]. intros _. cbn.
  destruct (PrimFloat.is_nan x); [lia|].
  pose proof (argmin_from_bound v x 0 1). lia.
Qed.

Lemma pivot_loop_spins l R C d m :
  length d = R * C ->
  m < R ->
  Numpy.all_ge (PrimFloat.opp tolerance) (costs_of d R C) = false ->
  forall fuel w iterations,
    nth_error (buffers w) l = Some d ->
    pivot_loop fuel m (mk_ndarray l [R; C]) iterations w
    = (OutOfFuel, warned w (loop_warnings d R C m fuel)).
Proof.
  intros Hlen Hm Hneg. induction fuel as [|fuel IH]; intros w iterations Hd.
  - cbn. unfold out_of_fuel. now rewrite warned_nil.
  - cbn [pivot_loop].
    erewrite bind_returned by (eapply objective_row_run; eauto; lia).
    rewrite Hneg.
    erewrite bind_returned by (eapply objective_row_run; eauto; lia).
    assert (Hne : costs_of d R C <> []) by (intro E; rewrite E in Hneg; discriminate).
    erewrite bind_returned by (now apply argmin_entering_of).
    pose proof (entering_of_bound _ Hne) as Hent.
    rewrite (costs_of_length R C d Hlen) in Hent by lia.
    erewrite bind_returned.
    2:{ eapply ratio_rows_run; eauto; [lia|].
        apply Forall_forall. intros i Hi. apply in_seq in Hi. lia. }
    rewrite IH by exact Hd.
    rewrite warned_warned. reflexivity.
Qed.

(* ------------------------------------------------------------------ *)
(** ** solve as a whole *)

Lemma solve_locals_enters_loop fuel self c A b maximize w m tableau w' :
  initial_tableau c A b maximize w = (Returned (m, tableau), w') ->
  solve_locals fuel self c A b maximize w = pivot_loop fuel m tableau 0 w'.
Proof. intro H. unfold solve_locals. now rewrite (bind_returned _ _ _ _ _ H). Qed.

Lemma solve_raises_with_initial_tableau fuel self c A b maximize w e w' :
  initial_tableau c A b maximize w = (Raised e, w') ->
  solve fuel self c A b maximize w = (Raised e, w').
Proof.
  intro H. unfold solve, solve_locals.
  apply bind_raised, bind_raised. exact H.
Qed.

Lemma solve_spins fuel self c A b maximize w m l R C d w' :
  initial_tableau c A b maximize w = (Returned (m, mk_ndarray l [R; C]), w') ->
  nth_error (buffers w') l = Some d ->
  length d = R * C ->
  m < R ->
  Numpy.all_ge (PrimFloat.opp tolerance) (costs_of d R C) = false ->
  solve fuel self c A b maximize w
  = (OutOfFuel, warned w' (loop_warnings d R C m fuel)).
Proof.
  intros Hi Hd Hlen Hm Hneg. unfold solve.
  apply bind_out_of_fuel.
  rewrite (solve_locals_enters_loop _ _ _ _ _ _ _ _ _ _ Hi).
  now apply pivot_loop_spins.
Qed.

Lemma solve_returns_None fuel self c A b maximize w v w' :
  solve fuel self c A b maximize w = (Returned v, w') -> v = PyNone.
Proof.
  unfold solve, bind.
  destruct (solve_locals fuel self c A b maximize w) as [[x|e| |] w1]; unfold ret;
    congruence.
Qed.

(* ------------------------------------------------------------------ *)
(** ** The initial tableau (lines 27-41) *)

(** C1.  On a well-dimensioned input (c of length n, A of shape m x n, b of
    length m) lines 27-39 build the m constraint rows [A | I_m | b], m rows
    of n+m+1 cells, and a cost row [c | 0...0] (c negated when maximize is
    set) of n+m cells only: the cost row has no trailing RHS cell, so the
    vstack of line 41 raises ValueError and no (m+1) x (n+m+1) tableau is
    built.  The comment of lines 36-37 announces [c | 0 | 0]. *)
Theorem initial_tableau_on_consistent_input lc lA lb m n dc dA db maximize w :
  nth_error (buffers w) lc = Some dc -> length dc = n ->
  nth_error (buffers w) lA = Some dA -> length dA = m * n ->
  nth_error (buffers w) lb = Some db -> length db = m ->
  exists pre rows cost_row,
    initial_tableau (mk_ndarray lc [n]) (mk_ndarray lA [m; n]) (mk_ndarray lb [m])
                    maximize w
    = (Raised (ValueError 41),
       mk_world (buffers w ++ pre ++ [rows; cost_row]) (solvers w) (stdout w)
                (warnings w))
    /\ length rows = m * (n + m + 1)
    /\ (forall i, i < m ->
          Numpy.slice rows (i * (n + m + 1)) (n + m + 1)
          = Numpy.slice dA (i * n) n ++ Numpy.eye_row m i ++ [nth i db 0%float])
    /\ cost_row = (if maximize then map PrimFloat.opp dc else dc) ++ repeat 0%float m
    /\ length cost_row = n + m.
Proof.
  intros Hc Lc HA LA Hb Lb.
  set (dc' := if maximize then map PrimFloat.opp dc else dc).
  assert (Lc' : length dc' = n) by (subst dc'; destruct maximize; now rewrite ?length_map).
  exists ((if maximize then [map PrimFloat.opp dc] else [])
          ++ [Numpy.eye_data m; A_std_data m n dA; repeat 0%float m; c_std_data n m dc']),
         (rows_data m n dA db), (cost_row_data n m dc').
  repeat split.
  - subst dc'. destruct maximize.
    + rewrite (initial_tableau_maximize _ _ _ _ _ _ Hc).
      rewrite (initial_tableau_run _ lA lb n m n [m] (map PrimFloat.opp dc) dA db)
        by lookup.
      rewrite size_1, Nat.eqb_refl. cbn [negb].
      destruct (Nat.eqb_spec n (n + 1)); [lia|]. cbn [negb].
      f_equal. unfold after_rows, after_standard_form, push; cbn.
      now rewrite <- !app_assoc.
    + rewrite (initial_tableau_run lc lA lb n m n [m] dc dA db) by assumption.
      rewrite size_1, Nat.eqb_refl. cbn [negb].
      destruct (Nat.eqb_spec n (n + 1)); [lia|]. cbn [negb].
      f_equal. unfold after_rows, after_standard_form, push; cbn.
      now rewrite <- !app_assoc.
  - now apply rows_data_length.
  - intros i Hi. now apply rows_data_row.
  - now apply cost_row_data_eq.
  - now apply cost_row_data_length.
Qed.

(** The same on Scenario 1 of the spec. *)
Lemma initial_tableau_on_scenario_1 :
  exists pre rows cost_row,
    initial_tableau (vec 0 2) (mat 1 3 2) (vec 2 3) true w1
    = (Raised (ValueError 41),
       mk_world (buffers w1 ++ pre ++ [rows; cost_row]) (solvers w1) (stdout w1)
                (warnings w1))
    /\ length rows = 3 * (2 + 3 + 1)
    /\ (forall i, i < 3 ->
          Numpy.slice rows (i * (2 + 3 + 1)) (2 + 3 + 1)
          = Numpy.slice [1; 1; 1; 0; 0; 1]%float (i * 2) 2
              ++ Numpy.eye_row 3 i ++ [nth i [4; 2; 3]%float 0%float])
    /\ cost_row = map PrimFloat.opp [3; 2]%float ++ repeat 0%float 3
    /\ length cost_row = 2 + 3.
Proof.
  apply (initial_tableau_on_consistent_input 0 1 2 3 2 [3; 2]%float
           [1; 1; 1; 0; 0; 1]%float [4; 2; 3]%float true w1); reflexivity.
Defined.

Lemma solve_raises_fst fuel self c A b maximize w e :
  fst (initial_tableau c A b maximize w) = Raised e ->
  fst (solve fuel self c A b maximize w) = Raised e.
Proof.
  intro H. destruct (initial_tableau c A b maximize w) as [o w'] eqn:E.
  cbn in H; subst o. now rewrite (solve_raises_with_initial_tableau _ _ _ _ _ _ _ _ _ E).
Qed.

(** When c has one entry more than A has columns (and b one entry for each
    row of A), line 41 does build an (m+1) x (n+m+1) tableau: the rows
    [A | I_m | b] and, below them, c (negated when maximize is set)
    followed by m zeros. *)
Theorem initial_tableau_when_c_is_one_longer lc lA lb m n dc dA db maximize w :
  nth_error (buffers w) lc = Some dc -> length dc = n + 1 ->
  nth_error (buffers w) lA = Some dA -> length dA = m * n ->
  nth_error (buffers w) lb = Some db -> length db = m ->
  exists l w' rows,
    initial_tableau (mk_ndarray lc [n + 1]) (mk_ndarray lA [m; n]) (mk_ndarray lb [m])
                    maximize w
    = (Returned (m, mk_ndarray l [m + 1; n + m + 1]), w')
    /\ nth_error (buffers w') l
       = Some (rows ++ (if maximize then map PrimFloat.opp dc else dc)
                    ++ repeat 0%float m)
    /\ length rows = m * (n + m + 1)
    /\ (forall i, i < m ->
          Numpy.slice rows (i * (n + m + 1)) (n + m + 1)
          = Numpy.slice dA (i * n) n ++ Numpy.eye_row m i ++ [nth i db 0%float]).
Proof.
  intros Hc Lc HA LA Hb Lb.
  set (dc' := if maximize then map PrimFloat.opp dc else dc).
  assert (Lc' : length dc' = n + 1)
    by (subst dc'; destruct maximize; now rewrite ?length_map).
  assert (Hrun : exists w0 lc',
             nth_error (buffers w0) lc' = Some dc'
             /\ nth_error (buffers w0) lA = Some dA
             /\ nth_error (buffers w0) lb = Some db
             /\ initial_tableau (mk_ndarray lc [n + 1]) (mk_ndarray lA [m; n])
                                (mk_ndarray lb [m]) maximize w
                = initial_tableau (mk_ndarray lc' [n + 1]) (mk_ndarray lA [m; n])
                                  (mk_ndarray lb [m]) false w0).
  { subst dc'. destruct maximize.
    - exists (push w (map PrimFloat.opp dc)), (length (buffers w)).
      repeat split; try lookup. now apply initial_tableau_maximize.
    - exists w, lc. repeat split; assumption. }
  destruct Hrun as [w0 [lc' [Hc' [HA' [Hb' E]]]]].
  exists (length (buffers (after_rows (n + 1) m n dc' dA db w0))),
         (push (after_rows (n + 1) m n dc' dA db w0)
               (tableau_data (n + 1) m n dc' dA db)),
         (rows_data m n dA db).
  repeat split.
  - rewrite E, (initial_tableau_run lc' lA lb (n + 1) m n [m] dc' dA db) by assumption.
    now rewrite size_1, !Nat.eqb_refl.
  - rewrite lookup_new, tableau_data_eq, cost_row_data_eq by assumption.
    reflexivity.
  - now apply rows_data_length.
  - intros i Hi. now apply rows_data_row.
Qed.

(** The same with c=[3,2,0] on the A and b of Scenario 1. *)
Lemma initial_tableau_when_c_is_one_longer_example :
  exists l w' rows,
    initial_tableau (vec 0 3) (mat 1 3 2) (vec 2 3) true w1_long
    = (Returned (3, mk_ndarray l [3 + 1; 2 + 3 + 1]), w')
    /\ nth_error (buffers w') l
       = Some (rows ++ map PrimFloat.opp [3; 2; 0]%float ++ repeat 0%float 3)
    /\ length rows = 3 * (2 + 3 + 1)
    /\ (forall i, i < 3 ->
          Numpy.slice rows (i * (2 + 3 + 1)) (2 + 3 + 1)
          = Numpy.slice [1; 1; 1; 0; 0; 1]%float (i * 2) 2
              ++ Numpy.eye_row 3 i ++ [nth i [4; 2; 3]%float 0%float]).
Proof.
  apply (initial_tableau_when_c_is_one_longer 0 1 2 3 2 [3; 2; 0]%float
           [1; 1; 1; 0; 0; 1]%float [4; 2; 3]%float true w1_long); reflexivity.
Defined.

(** C2.  Whenever c is a vector that does not have n+1 entries, in
    particular when it has as many entries as A has columns (A of shape
    m x n, b of any shape), solve raises ValueError while it assembles the
    tableau: at line 38 when b has not m entries, and otherwise at line 41,
    where a cost row of k+m cells is stacked under constraint rows of
    n+m+1 cells.  And on no input at all does solve return a dictionary. *)
Theorem solve_raises_while_assembling_the_tableau :
  (forall fuel self lc lA lb k m n sb dc dA db maximize w,
      nth_error (buffers w) lc = Some dc ->
      nth_error (buffers w) lA = Some dA ->
      nth_error (buffers w) lb = Some db ->
      k <> n + 1 ->
      exists w',
        solve fuel self (mk_ndarray lc [k]) (mk_ndarray lA [m; n]) (mk_ndarray lb sb)
              maximize w
        = (Raised (ValueError (if Numpy.size sb =? m then 41 else 38)), w')
        /\ (Numpy.size sb = m ->
            length dc = k -> length dA = m * n -> length db = m ->
            exists pre rows cost_row,
              buffers w' = buffers w ++ pre ++ [rows; cost_row]
              /\ length rows = m * (n + m + 1)
              /\ length cost_row = k + m))
  /\ (forall fuel self c A b maximize w v w',
        solve fuel self c A b maximize w = (Returned v, w') -> is_dict v = false).
Proof.
  split.
  - intros fuel self lc lA lb k m n sb dc dA db maximize w Hc HA Hb Hk.
    set (dc' := if maximize then map PrimFloat.opp dc else dc).
    assert (Hrun : exists w0 lc',
               nth_error (buffers w0) lc' = Some dc'
               /\ nth_error (buffers w0) lA = Some dA
               /\ nth_error (buffers w0) lb = Some db
               /\ (exists pre0, buffers w0 = buffers w ++ pre0)
               /\ initial_tableau (mk_ndarray lc [k]) (mk_ndarray lA [m; n])
                                  (mk_ndarray lb sb) maximize w
                  = initial_tableau (mk_ndarray lc' [k]) (mk_ndarray lA [m; n])
                                    (mk_ndarray lb sb) false w0).
    { subst dc'. destruct maximize.
      - exists (push w (map PrimFloat.opp dc)), (length (buffers w)).
        repeat split; try lookup.
        + now exists [map PrimFloat.opp dc].
        + now apply initial_tableau_maximize.
      - exists w, lc. repeat split; try assumption.
        exists []. now rewrite app_nil_r. }
    destruct Hrun as [w0 [lc' [Hc' [HA' [Hb' [[pre0 Hpre] E]]]]]].
    pose proof (initial_tableau_run lc' lA lb k m n sb dc' dA db w0 Hc' HA' Hb')
      as Hrun.
    rewrite <- E in Hrun.
    destruct (Nat.eqb_spec (Numpy.size sb) m) as [Em|Em]; cbn [negb] in Hrun.
    + destruct (Nat.eqb_spec k (n + 1)) as [Ek|Ek]; [contradiction|].
      cbn [negb] in Hrun.
      exists (after_rows k m n dc' dA db w0). split.
      * now apply solve_raises_with_initial_tableau.
      * intros _ Lc LA Lb.
        assert (Lc' : length dc' = k)
          by (subst dc'; destruct maximize; now rewrite ?length_map).
        exists (pre0 ++ [Numpy.eye_data m; A_std_data m n dA; repeat 0%float m;
                         c_std_data k m dc']),
               (rows_data m n dA db), (cost_row_data k m dc').
        repeat split.
        -- unfold after_rows, after_standard_form, push; cbn [buffers].
           rewrite Hpre, <- !app_assoc. reflexivity.
        -- now apply rows_data_length.
        -- now apply cost_row_data_length.
    + exists (after_standard_form k m n dc' dA w0). split.
      * now apply solve_raises_with_initial_tableau.
      * intro; contradiction.
  - intros fuel self c A b maximize w v w' H.
    now rewrite (solve_returns_None _ _ _ _ _ _ _ _ _ H).
Qed.

(** The first part on Scenario 2 of the spec, where A has one row: line 41,
    a cost row of 3 cells under a constraint row of 4. *)
Lemma solve_raises_at_line_41_on_scenario_2 :
  exists w',
    solve 7 0 (vec 0 2) (mat 1 1 2) (vec 2 1) true w2
    = (Raised (ValueError (if Numpy.size [1] =? 1 then 41 else 38)), w')
    /\ (Numpy.size [1] = 1 ->
        length [1; 1]%float = 2 -> length [1; -1]%float = 1 * 2 ->
        length [1]%float = 1 ->
        exists pre rows cost_row,
          buffers w' = buffers w2 ++ pre ++ [rows; cost_row]
          /\ length rows = 1 * (2 + 1 + 1)
          /\ length cost_row = 2 + 1).
Proof.
  apply (proj1 solve_raises_while_assembling_the_tableau 7 0 0 1 2 2 1 2 [1]
           [1; 1]%float [1; -1]%float [1]%float true w2); try reflexivity.
  lia.
Defined.

(** C3.  On Scenario 1 of the spec, a feasible bounded problem (c=[3,2],
    A=[[1,1],[1,0],[0,1]], b=[4,2,3], maximize), solve raises ValueError at
    line 41 whatever the fuel: it returns no solution. *)
Theorem solve_returns_no_solution_on_scenario_1 :
  forall fuel,
    fst (solve fuel 0 (vec 0 2) (mat 1 3 2) (vec 2 3) true w1) = Raised (ValueError 41).
Proof. intro fuel. apply solve_raises_fst. vm_compute. reflexivity. Qed.

(** C4.  On Scenario 1, maximizing or minimizing, solve raises ValueError at
    line 41, so no optimal_value is reported.  c is negated internally when
    maximize is set (the new buffer [-3,-2]), and the caller's c stays
    [3,2]. *)
Theorem solve_reports_no_optimal_value_on_scenario_1 :
  forall fuel maximize,
    let run := solve fuel 0 (vec 0 2) (mat 1 3 2) (vec 2 3) maximize w1 in
    fst run = Raised (ValueError 41)
    /\ nth_error (buffers (snd run)) 0 = Some [3; 2]%float
    /\ (maximize = true -> nth_error (buffers (snd run)) 3 = Some [-3; -2]%float).
Proof.
  intros fuel maximize run. subst run.
  destruct maximize.
  - rewrite (solve_raises_with_initial_tableau fuel 0 _ _ _ true w1 (ValueError 41)
               (snd (initial_tableau (vec 0 2) (mat 1 3 2) (vec 2 3) true w1)))
      by (vm_compute; reflexivity).
    repeat split; intros; vm_compute; reflexivity.
  - rewrite (solve_raises_with_initial_tableau fuel 0 _ _ _ false w1 (ValueError 41)
               (snd (initial_tableau (vec 0 2) (mat 1 3 2) (vec 2 3) false w1)))
      by (vm_compute; reflexivity).
    repeat split; intros; try discriminate; vm_compute; reflexivity.
Qed.

(** C5.  On Scenario 2 of the spec, an unbounded problem (c=[1,1],
    A=[[1,-1]], b=[1], maximize), solve raises ValueError at line 41
    whatever the fuel: it does not return a result with status unbounded. *)
Theorem solve_raises_on_scenario_2 :
  forall fuel,
    fst (solve fuel 0 (vec 0 2) (mat 1 1 2) (vec 2 1) true w2) = Raised (ValueError 41).
Proof. intro fuel. apply solve_raises_fst. vm_compute. reflexivity. Qed.

(** C6, as amended.  When b does not have as many entries as A has rows
    (c a vector of any length), solve fails with NumPy's ValueError, raised
    by the hstack of line 38, after the arrays of the standard form have
    been built: -c when maximize is set, then I_m, A_std, zeros(m) and
    c_std. *)
Theorem b_of_the_wrong_size_raises_ValueError
        fuel self lc lA lb k m n sb dc dA db maximize w :
  nth_error (buffers w) lc = Some dc ->
  nth_error (buffers w) lA = Some dA ->
  nth_error (buffers w) lb = Some db ->
  Numpy.size sb <> m ->
  exists built,
    solve fuel self (mk_ndarray lc [k]) (mk_ndarray lA [m; n]) (mk_ndarray lb sb)
          maximize w
    = (Raised (ValueError 38),
       mk_world (buffers w ++ built) (solvers w) (stdout w) (warnings w))
    /\ length built = if maximize then 5 else 4.
Proof.
  intros Hc HA Hb Hsize.
  assert (Hneq : negb (Numpy.size sb =? m) = true)
    by (destruct (Nat.eqb_spec (Numpy.size sb) m); [contradiction | reflexivity]).
  destruct maximize.
  - exists [map PrimFloat.opp dc; Numpy.eye_data m; A_std_data m n dA;
            repeat 0%float m; c_std_data k m (map PrimFloat.opp dc)].
    split; [|reflexivity].
    apply solve_raises_with_initial_tableau.
    rewrite (initial_tableau_maximize _ _ _ _ _ _ Hc).
    rewrite (initial_tableau_run _ lA lb k m n sb (map PrimFloat.opp dc) dA db)
      by lookup.
    rewrite Hneq. f_equal. unfold after_standard_form, push; cbn.
    now rewrite <- !app_assoc.
  - exists [Numpy.eye_data m; A_std_data m n dA; repeat 0%float m; c_std_data k m dc].
    split; [|reflexivity].
    apply solve_raises_with_initial_tableau.
    rewrite (initial_tableau_run lc lA lb k m n sb dc dA db) by assumption.
    rewrite Hneq. f_equal. unfold after_standard_form, push; cbn.
    now rewrite <- !app_assoc.
Qed.

(** The same with c=[1,1], A=[[1,1]], b=[1,2]. *)
Lemma b_of_the_wrong_size_example :
  exists built,
    solve 7 0 (vec 0 2) (mat 1 1 2) (vec 2 2) true w_b
    = (Raised (ValueError 38),
       mk_world (buffers w_b ++ built) (solvers w_b) (stdout w_b) (warnings w_b))
    /\ length built = 5.
Proof.
  apply (b_of_the_wrong_size_raises_ValueError 7 0 0 1 2 2 1 2 [2] [1; 1]%float
           [1; 1]%float [1; 2]%float true w_b); try reflexivity.
  vm_compute. discriminate.
Defined.

(** With c=[1,1], A=[[1,1]], b=[1,2] the exception is a ValueError of line
    38, not a DimensionError, and A_std = [[1,1,1]] and c_std = [1,1,0] are
    in the store by then. *)
Lemma no_DimensionError_and_work_done_first :
  let run := solve 7 0 (vec 0 2) (mat 1 1 2) (vec 2 2) false w_b in
  fst run = Raised (ValueError 38)
  /\ fst run <> Raised (mk_exception "DimensionError" 38)
  /\ nth_error (buffers (snd run)) 4 = Some [1; 1; 1]%float
  /\ nth_error (buffers (snd run)) 6 = Some [1; 1; 0]%float.
Proof.
  cbv zeta. repeat split; try (vm_compute; reflexivity).
  vm_compute. discriminate.
Qed.

(* ------------------------------------------------------------------ *)
(** ** The loop (lines 45-62) *)

(** C7.  With c=[1,1,1], A=[[1,1]], b=[1], minimizing, the objective row
    passes the test at once: solve leaves the loop and returns None, no
    status.  With c=[3,2,0], A=[[1,1],[1,0],[0,1]], b=[4,2,3], maximizing,
    the test fails: solve is still running whatever the fuel, and the
    tableau is the one that line 41 built, no pivot was made on it. *)
Theorem solve_reports_no_status_and_never_pivots :
  (forall fuel,
      fst (solve (S fuel) 0 (vec 0 3) (mat 1 1 2) (vec 2 1) false w_long)
      = Returned PyNone)
  /\ (forall fuel,
        let run := solve fuel 0 (vec 0 3) (mat 1 3 2) (vec 2 3) true w1_long in
        fst run = OutOfFuel
        /\ nth_error (buffers (snd run)) 10
           = Some [1; 1; 1; 0; 0; 4;
                   1; 0; 0; 1; 0; 2;
                   0; 1; 0; 0; 1; 3;
                   -3; -2; -0; 0; 0; 0]%float).
Proof.
  split.
  - intro fuel. unfold solve.
    erewrite bind_returned; [reflexivity|].
    erewrite solve_locals_enters_loop by (vm_compute; reflexivity).
    apply (pivot_loop_exit _ 9 2 4 [1; 1; 1; 1; 1; 1; 1; 0]%float); reflexivity || lia.
  - intro fuel. cbv zeta.
    rewrite (solve_spins fuel 0 _ _ _ true w1_long 3 10 4 6
               [1; 1; 1; 0; 0; 4; 1; 0; 0; 1; 0; 2; 0; 1; 0; 0; 1; 3;
                -3; -2; -0; 0; 0; 0]%float
               (snd (initial_tableau (vec 0 3) (mat 1 3 2) (vec 2 3) true w1_long)));
      try (vm_compute; reflexivity); try lia.
    split; [reflexivity | vm_compute; reflexivity].
Qed.

(** Lines 56-62 on an R x C tableau, for an entering column and m <= R
    rows: ratios is, row after row, the pair (tableau[i,-1] /
    tableau[i,entering], i) when the entry of row i in the entering column
    is above 1e-10, and (inf, i) otherwise; each division that overflows
    or is invalid issues its RuntimeWarning.  Nothing is chosen from the
    list. *)
Theorem ratios_of_the_entering_column w l R C d m entering :
  nth_error (buffers w) l = Some d ->
  length d = R * C ->
  m <= R ->
  entering < C ->
  ratio_rows (seq 0 m) (mk_ndarray l [R; C]) entering [] w
  = (Returned (map (ratio_entry d C entering) (seq 0 m)),
     warned w (ratio_warnings d C entering (seq 0 m))).
Proof.
  intros Hd Hlen Hm He.
  rewrite (ratio_rows_run l R C d entering (seq 0 m) w [] Hd Hlen He);
    [reflexivity|].
  apply Forall_forall. intros i Hi. apply in_seq in Hi. lia.
Qed.

(** On the tableau [[1,1,1,1],[-1,-1,0,0]] with entering column 0: [(1, 0)],
    and no warning. *)
Lemma ratios_of_the_entering_column_example :
  ratio_rows (seq 0 1) (mat 0 2 4) 0 [] w_negative
  = (Returned (map (ratio_entry [1; 1; 1; 1; -1; -1; 0; 0]%float 4 0) (seq 0 1)),
     w_negative).
Proof.
  apply (ratios_of_the_entering_column w_negative 0 2 4
           [1; 1; 1; 1; -1; -1; 0; 0]%float 1 0); reflexivity || lia.
Defined.

(** C8, as amended.  The loop has no iteration cap: on a tableau (R x C,
    with m < R) whose objective row fails the optimality test, it is still
    running after any number of iterations, having issued the warnings of
    that many passes. *)
Theorem pivot_loop_has_no_cap w l R C d m fuel iterations :
  nth_error (buffers w) l = Some d ->
  length d = R * C ->
  m < R ->
  Numpy.all_ge (PrimFloat.opp tolerance) (costs_of d R C) = false ->
  pivot_loop fuel m (mk_ndarray l [R; C]) iterations w
  = (OutOfFuel, warned w (loop_warnings d R C m fuel)).
Proof. intros Hd Hlen Hm Hneg. now apply pivot_loop_spins. Qed.

(** The same on the tableau [[1,1,1,1],[-1,-1,0,0]], after 1000 iterations. *)
Lemma pivot_loop_has_no_cap_example :
  pivot_loop 1000 1 (mat 0 2 4) 0 w_negative = (OutOfFuel, w_negative).
Proof.
  apply (pivot_loop_has_no_cap w_negative 0 2 4 [1; 1; 1; 1; -1; -1; 0; 0]%float 1
           1000 0); reflexivity || lia.
Defined.

(** With c=[1,1,0], A=[[1,1]], b=[1], maximizing, solve does not come to an
    end. *)
Lemma solve_does_not_terminate :
  ~ terminates 0 (vec 0 3) (mat 1 1 2) (vec 2 1) true w_spin.
Proof.
  intros [fuel H]. apply H.
  erewrite solve_spins;
    [ reflexivity
    | vm_compute; reflexivity
    | vm_compute; reflexivity
    | reflexivity
    | lia
    | vm_compute; reflexivity ].
Qed.

Lemma solve_locals_maximize fuel self lc s A b dc w :
  nth_error (buffers w) lc = Some dc ->
  solve_locals fuel self (mk_ndarray lc s) A b true w
  = solve_locals fuel self (mk_ndarray (length (buffers w)) s) A b false
      (push w (map PrimFloat.opp dc)).
Proof.
  intro H. unfold solve_locals, bind at 1 2.
  rewrite (initial_tableau_maximize _ _ _ _ _ _ H). reflexivity.
Qed.

Lemma solve_of_locals fuel self c A b maximize w locals w' :
  solve_locals fuel self c A b maximize w = (Returned locals, w') ->
  solve fuel self c A b maximize w = (Returned PyNone, w').
Proof. intro H. unfold solve. now rewrite (bind_returned _ _ _ _ _ H). Qed.

Lemma costs_of_tableau_data m n dc dA db :
  length dc = n + 1 -> length dA = m * n -> length db = m ->
  costs_of (tableau_data (n + 1) m n dc dA db) (m + 1) (n + m + 1)
  = firstn (n + m) (dc ++ repeat 0%float m).
Proof.
  intros Hc HA Hb. unfold costs_of.
  rewrite tableau_data_eq, cost_row_data_eq by assumption.
  replace ((m + 1 - 1) * (n + m + 1)) with (length (rows_data m n dA db) + 0)
    by (rewrite rows_data_length by assumption; nia).
  rewrite slice_app_r. unfold Numpy.slice; cbn [skipn]. f_equal. lia.
Qed.

Lemma tableau_data_length m n dc dA db :
  length dc = n + 1 -> length dA = m * n -> length db = m ->
  length (tableau_data (n + 1) m n dc dA db) = (m + 1) * (n + m + 1).
Proof.
  intros Hc HA Hb.
  rewrite tableau_data_eq, length_app, rows_data_length, cost_row_data_length
    by assumption.
  nia.
Qed.

Lemma solve_locals_leaves_at_once fuel self lc lA lb m n sb dc dA db w :
  nth_error (buffers w) lc = Some dc -> length dc = n + 1 ->
  nth_error (buffers w) lA = Some dA -> length dA = m * n ->
  nth_error (buffers w) lb = Some db -> length db = m ->
  Numpy.size sb = m ->
  Numpy.all_ge (PrimFloat.opp tolerance) (firstn (n + m) (dc ++ repeat 0%float m))
  = true ->
  exists tableau w',
    solve_locals (S fuel) self (mk_ndarray lc [n + 1]) (mk_ndarray lA [m; n])
                 (mk_ndarray lb sb) false w
    = (Returned (mk_locals tableau 1), w')
    /\ a_shape tableau = [m + 1; n + m + 1]
    /\ nth_error (buffers w') (a_data tableau)
       = Some (tableau_data (n + 1) m n dc dA db).
Proof.
  intros Hc Lc HA LA Hb Lb Hsb Htest.
  pose proof (initial_tableau_run lc lA lb (n + 1) m n sb dc dA db w Hc HA Hb)
    as Hrun.
  rewrite Hsb, !Nat.eqb_refl in Hrun. cbn [negb] in Hrun.
  eexists. eexists. split; [|split].
  - rewrite (solve_locals_enters_loop _ _ _ _ _ _ _ _ _ _ Hrun).
    apply (pivot_loop_exit _ _ (m + 1) (n + m + 1)
             (tableau_data (n + 1) m n dc dA db)).
    + apply lookup_new.
    + now apply tableau_data_length.
    + lia.
    + now rewrite costs_of_tableau_data.
  - reflexivity.
  - apply lookup_new.
Qed.

(** C9.  Whenever the tableau is assembled (c of n+1 entries, b of m) and
    its objective row passes the optimality test at once, so that no pivot
    is made, the counter that solve keeps is 1, not 0, when the loop is
    left (line 46 increments it before the test of line 49), and solve
    returns None: there is no result and no iterations field. *)
Theorem iterations_is_one_and_is_not_returned
        fuel self lc lA lb m n sb dc dA db (maximize : bool) w :
  nth_error (buffers w) lc = Some dc -> length dc = n + 1 ->
  nth_error (buffers w) lA = Some dA -> length dA = m * n ->
  nth_error (buffers w) lb = Some db -> length db = m ->
  Numpy.size sb = m ->
  Numpy.all_ge (PrimFloat.opp tolerance)
    (firstn (n + m)
       ((if maximize then map PrimFloat.opp dc else dc) ++ repeat 0%float m))
  = true ->
  exists tableau w',
    solve_locals (S fuel) self (mk_ndarray lc [n + 1]) (mk_ndarray lA [m; n])
                 (mk_ndarray lb sb) maximize w
    = (Returned (mk_locals tableau 1), w')
    /\ solve (S fuel) self (mk_ndarray lc [n + 1]) (mk_ndarray lA [m; n])
             (mk_ndarray lb sb) maximize w
       = (Returned PyNone, w').
Proof.
  intros Hc Lc HA LA Hb Lb Hsb Htest.
  assert (H : exists tableau w',
             solve_locals (S fuel) self (mk_ndarray lc [n + 1]) (mk_ndarray lA [m; n])
                          (mk_ndarray lb sb) maximize w
             = (Returned (mk_locals tableau 1), w')).
  { destruct maximize.
    - rewrite (solve_locals_maximize _ _ _ _ _ _ _ _ Hc).
      assert (Hc' : nth_error (buffers (push w (map PrimFloat.opp dc)))
                      (length (buffers w)) = Some (map PrimFloat.opp dc))
        by apply lookup_new.
      assert (Lc' : length (map PrimFloat.opp dc) = n + 1) by now rewrite length_map.
      destruct (solve_locals_leaves_at_once fuel self (length (buffers w)) lA lb m n sb
                  (map PrimFloat.opp dc) dA db (push w (map PrimFloat.opp dc))
                  Hc' Lc' (lookup_push _ _ _ _ HA) LA (lookup_push _ _ _ _ Hb) Lb
                  Hsb Htest)
        as [t [w' [E _]]].
      eauto.
    - destruct (solve_locals_leaves_at_once fuel self lc lA lb m n sb dc dA db w
                  Hc Lc HA LA Hb Lb Hsb Htest)
        as [t [w' [E _]]].
      eauto. }
  destruct H as [t [w' E]]. exists t, w'. split; [exact E|].
  exact (solve_of_locals _ _ _ _ _ _ _ _ _ E).
Qed.

(** With c=[1,1,1], A=[[1,1]], b=[1], minimizing: the initial tableau
    [[1,1,1,1],[1,1,1,0]] passes the test at once. *)
Lemma iterations_is_one_on_an_optimal_tableau :
  exists tableau w',
    solve_locals 1 0 (vec 0 3) (mat 1 1 2) (vec 2 1) false w_long
    = (Returned (mk_locals tableau 1), w')
    /\ solve 1 0 (vec 0 3) (mat 1 1 2) (vec 2 1) false w_long
       = (Returned PyNone, w').
Proof.
  apply (iterations_is_one_and_is_not_returned 0 0 0 1 2 1 2 [1] [1; 1; 1]%float
           [1; 1]%float [1]%float false w_long); reflexivity.
Defined.

(* ------------------------------------------------------------------ *)
(** ** What solve leaves behind *)

Lemma warns_at_59_refl w : warns_at_59 w w.
Proof. exists []. split; [now rewrite app_nil_r | constructor]. Qed.

Lemma warns_at_59_trans w1 w2 w3 :
  warns_at_59 w1 w2 -> warns_at_59 w2 w3 -> warns_at_59 w1 w3.
Proof.
  intros [m1 [H1 F1]] [m2 [H2 F2]]. exists (m1 ++ m2). split.
  - now rewrite H2, H1, app_assoc.
  - apply Forall_app. now split.
Qed.

Create HintDb warn59.

Lemma warns_ret {A} (a : A) : warns_only_at_59 (ret a).
Proof. intro w. apply warns_at_59_refl. Qed.

Lemma warns_raise {A} e : warns_only_at_59 (@raise A e).
Proof. intro w. apply warns_at_59_refl. Qed.

Lemma warns_out_of_fuel {A} : warns_only_at_59 (@out_of_fuel A).
Proof. intro w. apply warns_at_59_refl. Qed.

Lemma warns_fault {A} : warns_only_at_59 (fun w => (@Fault A, w)).
Proof. intro w. apply warns_at_59_refl. Qed.

Lemma warns_bind {A B} (m : M A) (k : A -> M B) :
  warns_only_at_59 m -> (forall a, warns_only_at_59 (k a)) ->
  warns_only_at_59 (bind m k).
Proof.
  intros Hm Hk w. unfold bind. specialize (Hm w).
  destruct (m w) as [[a| e | | ] w1]; cbn in *; try assumption.
  eapply warns_at_59_trans; [eassumption | apply Hk].
Qed.

Lemma warns_load a : warns_only_at_59 (load a).
Proof. intro w. unfold load. destruct (nth_error _ _); apply warns_at_59_refl. Qed.

Lemma warns_alloc d : warns_only_at_59 (alloc d).
Proof. intro w. exists []. split; [cbn; now rewrite app_nil_r | constructor]. Qed.

Lemma warns_true_divide x y : warns_only_at_59 (Numpy.true_divide 59 x y).
Proof.
  intro w. exists (map (fun e => RuntimeWarning e 59) (Numpy.divide_errors x y)).
  split; [reflexivity|]. apply Forall_forall. intros q Hq.
  apply in_map_iff in Hq. destruct Hq as [e [<- _]]. reflexivity.
Qed.

#[export] Hint Resolve warns_ret warns_raise warns_out_of_fuel warns_fault
  warns_load warns_alloc warns_true_divide : warn59.

Ltac warn_steps :=
  repeat first
    [ progress auto with warn59
    | apply warns_bind; [ | intros ? ]
    | match goal with
      | |- warns_only_at_59 (match ?x with _ => _ end) => destruct x
      | |- warns_only_at_59 (if ?x then _ else _) => destruct x
      end ].

Lemma warns_load_all arrs : warns_only_at_59 (load_all arrs).
Proof. induction arrs; cbn; warn_steps. Qed.

#[export] Hint Resolve warns_load_all : warn59.

Lemma warns_concatenate line arrs axis :
  warns_only_at_59 (Numpy.concatenate line arrs axis).
Proof. unfold Numpy.concatenate, new_array. warn_steps. Qed.

Lemma warns_item line t i j : warns_only_at_59 (item line t i j).
Proof. unfold item. warn_steps. Qed.

#[export] Hint Resolve warns_concatenate warns_item : warn59.

Lemma warns_ratio_rows rows t e :
  forall ratios, warns_only_at_59 (ratio_rows rows t e ratios).
Proof. induction rows; intros; cbn; unfold item_last; warn_steps. Qed.

#[export] Hint Resolve warns_ratio_rows : warn59.

Lemma warns_pivot_loop fuel m t : forall it, warns_only_at_59 (pivot_loop fuel m t it).
Proof.
  induction fuel; intros; cbn; unfold objective_row, Numpy.argmin; warn_steps.
Qed.

#[export] Hint Resolve warns_pivot_loop : warn59.

Lemma warns_solve fuel self c A b maximize :
  warns_only_at_59 (solve fuel self c A b maximize).
Proof.
  unfold solve, solve_locals, initial_tableau, unpack_shape, Numpy.negative,
    Numpy.eye, Numpy.zeros, Numpy.hstack, Numpy.vstack, new_array.
  warn_steps.
Qed.

(** C10, as amended.  Whatever its arguments, its outcome and the fuel,
    solve leaves every buffer of the store as it was, in particular those
    of the caller's c, A and b, it leaves the SimplexSolver objects as they
    were, and it prints nothing; what it adds to the state outside its
    locals are the RuntimeWarnings of the division of line 59, and nothing
    else. *)
Theorem solve_mutates_no_array_and_warns_at_line_59 fuel self c A b maximize w :
  let w' := snd (solve fuel self c A b maximize w) in
  (forall l d, nth_error (buffers w) l = Some d -> nth_error (buffers w') l = Some d)
  /\ solvers w' = solvers w
  /\ stdout w' = stdout w
  /\ warns_at_59 w w'.
Proof.
  cbv zeta.
  assert (H : frame_safe (solve fuel self c A b maximize)).
  { unfold solve. frame_steps. }
  specialize (H w). split; [|split; [|split]].
  - intros l d. now apply extends_lookup.
  - exact (proj1 (proj2 H)).
  - exact (proj2 (proj2 H)).
  - apply warns_solve.
Qed.

(** With c=[1,0,0], A=[[1e-5,1]], b=[1e308], maximizing, on a solver whose
    verbose flag is not set: the ratio 1e308 / 1e-5 of the first pass
    overflows, and solve hands a RuntimeWarning to the warnings module. *)
Lemma solve_issues_a_RuntimeWarning :
  let run := solve 1 0 (vec 0 3) (mat 1 1 2) (vec 2 1) true w_overflow in
  nth_error (solvers w_overflow) 0 = Some (mk_SimplexSolver false)
  /\ warnings w_overflow = []
  /\ warnings (snd run) = [RuntimeWarning Overflow 59].
Proof. cbv zeta. repeat split; vm_compute; reflexivity. Qed.

(* ------------------------------------------------------------------ *)
(** ** The order of the floats *)

Lemma SFcompare_refl s : s <> S754_nan -> SFcompare s s = Some Eq.
Proof.
  destruct s as [z| i | | sg m e]; intro H; try congruence; cbn.
  - reflexivity.
  - now destruct i.
  - rewrite Z.compare_refl.
    change (Pos.compare_cont Eq m m) with (Pos.compare m m).
    rewrite Pos.compare_refl. now destruct sg.
Qed.

Ltac order_cases :=
  repeat match goal with
    | |- context [Z.compare ?a ?b] => destruct (Z.compare_spec a b)
    | H : context [Z.compare ?a ?b] |- _ => destruct (Z.compare_spec a b)
    | |- context [Pos.compare ?a ?b] => destruct (Pos.compare_spec a b)
    | H : context [Pos.compare ?a ?b] |- _ => destruct (Pos.compare_spec a b)
    end.

Lemma SFleb_trans a b c :
  SFleb a b = true -> SFleb b c = true -> SFleb a c = true.
Proof.
  unfold SFleb.
  destruct a as [?|sa| |sa ma ea], b as [?|sb| |sb mb eb], c as [?|sc| |sc mc ec];
    cbn; try discriminate; try reflexivity;
    repeat match goal with s : bool |- _ => destruct s end;
    cbn; try discriminate; try reflexivity;
    change (Pos.compare_cont Eq) with Pos.compare;
    intros H1 H2; order_cases; cbn in *;
      try discriminate; try reflexivity; try lia.
Qed.

Lemma SFleb_total a b :
  a <> S754_nan -> b <> S754_nan -> SFleb a b = false -> SFleb b a = true.
Proof.
  unfold SFleb.
  destruct a as [?|sa| |sa ma ea], b as [?|sb| |sb mb eb];
    cbn; try congruence;
    repeat match goal with s : bool |- _ => destruct s end;
    cbn; try congruence;
    change (Pos.compare_cont Eq) with Pos.compare;
    intros _ _ H1; order_cases; cbn in *;
      try discriminate; try reflexivity; try lia.
Qed.

Lemma is_nan_false x : PrimFloat.is_nan x = false -> Prim2SF x <> S754_nan.
Proof.
  unfold PrimFloat.is_nan. rewrite eqb_spec. unfold SFeqb.
  intros H E. rewrite E in H. discriminate.
Qed.

Lemma is_nan_true x : PrimFloat.is_nan x = true -> Prim2SF x = S754_nan.
Proof.
  unfold PrimFloat.is_nan. rewrite eqb_spec. unfold SFeqb.
  destruct (Prim2SF x) eqn:E; try reflexivity;
    rewrite SFcompare_refl by discriminate; discriminate.
Qed.

Lemma leb_trans x y z :
  PrimFloat.leb x y = true -> PrimFloat.leb y z = true -> PrimFloat.leb x z = true.
Proof. rewrite !leb_spec. apply SFleb_trans. Qed.

Lemma leb_total x y :
  PrimFloat.is_nan x = false -> PrimFloat.is_nan y = false ->
  PrimFloat.leb x y = false -> PrimFloat.leb y x = true.
Proof.
  intros Hx Hy. rewrite !leb_spec. apply SFleb_total; now apply is_nan_false.
Qed.

Lemma leb_refl x : PrimFloat.is_nan x = false -> PrimFloat.leb x x = true.
Proof.
  intro H. rewrite leb_spec. unfold SFleb.
  now rewrite SFcompare_refl by now apply is_nan_false.
Qed.

Lemma leb_nan_r x y : PrimFloat.is_nan y = true -> PrimFloat.leb x y = false.
Proof.
  intro H. rewrite leb_spec, (is_nan_true y H). unfold SFleb.
  now destruct (Prim2SF x).
Qed.

Lemma leb_nan_l x y : PrimFloat.is_nan x = true -> PrimFloat.leb x y = false.
Proof.
  intro H. rewrite leb_spec, (is_nan_true x H). reflexivity.
Qed.

(* ------------------------------------------------------------------ *)
(** ** The entering column (lines 49-53) *)

Lemma no_nan_cons x v : no_nan (x :: v) -> PrimFloat.is_nan x = false /\ no_nan v.
Proof.
  intro H. split.
  - apply (H 0). cbn. lia.
  - intros j Hj. apply (H (S j)). cbn. lia.
Qed.

(** The invariant of NumPy's scan: [best], at index [at_], is the first
    minimum of the entries [pre] seen so far. *)
Lemma argmin_from_first_minimum v : forall pre best at_,
  no_nan v ->
  PrimFloat.is_nan best = false ->
  at_ < length pre ->
  nth at_ pre 0%float = best ->
  (forall j, j < length pre -> PrimFloat.leb best (nth j pre 0%float) = true) ->
  (forall j, j < at_ -> PrimFloat.leb (nth j pre 0%float) best = false) ->
  let r := Numpy.argmin_from best at_ (length pre) v in
  r < length (pre ++ v)
  /\ (forall j, j < length (pre ++ v) ->
        PrimFloat.leb (nth r (pre ++ v) 0%float) (nth j (pre ++ v) 0%float) = true)
  /\ (forall j, j < r ->
        PrimFloat.leb (nth j (pre ++ v) 0%float) (nth r (pre ++ v) 0%float) = false).
Proof.
  induction v as [|x v IH]; intros pre best at_ Hv Hb Hat Hnth Hall Hfirst; cbn zeta.
  - cbn [Numpy.argmin_from]. rewrite app_nil_r, Hnth. auto.
  - apply no_nan_cons in Hv. destruct Hv as [Hx Hv].
    cbn [Numpy.argmin_from].
    replace (pre ++ x :: v) with ((pre ++ [x]) ++ v) by now rewrite <- app_assoc.
    replace (S (length pre)) with (length (pre ++ [x]))
      by (rewrite length_app; cbn; lia).
    destruct (PrimFloat.leb best x) eqn:E.
    + apply IH; try assumption.
      * rewrite length_app; cbn; lia.
      * now rewrite app_nth1.
      * intros j Hj. rewrite length_app in Hj; cbn in Hj.
        destruct (Nat.eq_dec j (length pre)) as [->|Hne].
        -- now rewrite nth_middle.
        -- rewrite app_nth1 by lia. apply Hall. lia.
      * intros j Hj. rewrite app_nth1 by lia. now apply Hfirst.
    + rewrite Hx. apply IH; try assumption.
      * rewrite length_app; cbn; lia.
      * apply nth_middle.
      * intros j Hj. rewrite length_app in Hj; cbn in Hj.
        destruct (Nat.eq_dec j (length pre)) as [->|Hne].
        -- rewrite nth_middle. now apply leb_refl.
        -- rewrite app_nth1 by lia.
           apply (leb_trans x best); [now apply leb_total | apply Hall; lia].
      * intros j Hj. rewrite app_nth1 by lia.
        destruct (PrimFloat.leb (nth j pre 0%float) x) eqn:E'; [|reflexivity].
        rewrite (leb_trans best (nth j pre 0%float) x) in E;
          [discriminate | apply Hall; lia | assumption].
Qed.

Lemma argmin_first_minimum line v w :
  v <> [] ->
  no_nan v ->
  exists entering,
    Numpy.argmin line v w = (Returned entering, w)
    /\ entering < length v
    /\ (forall j, j < length v ->
          PrimFloat.leb (nth entering v 0%float) (nth j v 0%float) = true)
    /\ (forall j, j < entering ->
          PrimFloat.leb (nth j v 0%float) (nth entering v 0%float) = false).
Proof.
  destruct v as [|x v]; [congruence|]. intros _ Hv.
  destruct (no_nan_cons _ _ Hv) as [Hx Hrest].
  exists (Numpy.argmin_from x 0 1 v). cbn [Numpy.argmin]. rewrite Hx.
  split; [reflexivity|].
  apply (argmin_from_first_minimum v [x] x 0); try assumption; try reflexivity.
  - cbn. lia.
  - intros j Hj. cbn in Hj. replace j with 0 by lia. now apply leb_refl.
  - intros j Hj. lia.
Qed.

(** Line 53.  On a row of costs without NaN, np.argmin returns the index of
    a smallest cost, and every cost before it is strictly larger: the
    entering column is the first of the most negative ones. *)
Theorem entering_is_the_first_minimum line v w :
  v <> [] ->
  no_nan v ->
  exists entering,
    Numpy.argmin line v w = (Returned entering, w)
    /\ entering < length v
    /\ (forall j, j < length v ->
          PrimFloat.leb (nth entering v 0%float) (nth j v 0%float) = true)
    /\ (forall j, j < entering ->
          PrimFloat.leb (nth j v 0%float) (nth entering v 0%float) = false).
Proof. intros Hne Hv. now apply argmin_first_minimum. Qed.

Lemma no_nan_example : no_nan [-3; -2; -3; 0]%float.
Proof.
  intros j Hj. cbn in Hj.
  do 4 (destruct j as [|j]; [reflexivity|]). lia.
Qed.

(** On the costs [-3,-2,-3,0]. *)
Lemma entering_is_the_first_minimum_example :
  exists entering,
    Numpy.argmin 53 [-3; -2; -3; 0]%float w_tableau = (Returned entering, w_tableau)
    /\ entering < length [-3; -2; -3; 0]%float
    /\ (forall j, j < length [-3; -2; -3; 0]%float ->
          PrimFloat.leb (nth entering [-3; -2; -3; 0]%float 0%float)
                        (nth j [-3; -2; -3; 0]%float 0%float) = true)
    /\ (forall j, j < entering ->
          PrimFloat.leb (nth j [-3; -2; -3; 0]%float 0%float)
                        (nth entering [-3; -2; -3; 0]%float 0%float) = false).
Proof.
  apply (entering_is_the_first_minimum 53 [-3; -2; -3; 0]%float w_tableau).
  - discriminate.
  - exact no_nan_example.
Defined.

Lemma all_ge_false bound v :
  Numpy.all_ge bound v = false ->
  exists j, j < length v /\ PrimFloat.leb bound (nth j v 0%float) = false.
Proof.
  induction v as [|x v IH]; cbn; [discriminate|].
  destruct (PrimFloat.leb bound x) eqn:E; cbn.
  - intro H. destruct (IH H) as [j [Hj Hb]]. exists (S j). split; [lia | assumption].
  - intros _. exists 0. split; [lia | assumption].
Qed.

(** Lines 49-53.  When the optimality test fails on a row of costs without
    NaN, the entering column that line 53 picks has itself a cost that is
    not >= -1e-10. *)
Theorem entering_cost_is_below_minus_tolerance v w :
  no_nan v ->
  Numpy.all_ge (PrimFloat.opp tolerance) v = false ->
  exists entering,
    Numpy.argmin 53 v w = (Returned entering, w)
    /\ entering < length v
    /\ PrimFloat.leb (PrimFloat.opp tolerance) (nth entering v 0%float) = false.
Proof.
  intros Hv Hneg.
  assert (Hne : v <> []) by (intro E; rewrite E in Hneg; discriminate).
  destruct (argmin_first_minimum 53 v w Hne Hv) as [e [Hrun [He [Hmin _]]]].
  exists e. repeat split; try assumption.
  destruct (all_ge_false _ _ Hneg) as [j [Hj Hb]].
  destruct (PrimFloat.leb (PrimFloat.opp tolerance) (nth e v 0%float)) eqn:E;
    [|reflexivity].
  rewrite (leb_trans _ _ _ E (Hmin j Hj)) in Hb. discriminate.
Qed.

(** On the costs [-3,-2,-3,0]. *)
Lemma entering_cost_is_below_minus_tolerance_example :
  exists entering,
    Numpy.argmin 53 [-3; -2; -3; 0]%float w_tableau = (Returned entering, w_tableau)
    /\ entering < length [-3; -2; -3; 0]%float
    /\ PrimFloat.leb (PrimFloat.opp tolerance)
                     (nth entering [-3; -2; -3; 0]%float 0%float) = false.
Proof.
  apply (entering_cost_is_below_minus_tolerance [-3; -2; -3; 0]%float w_tableau).
  - exact no_nan_example.
  - reflexivity.
Defined.

Lemma argmin_from_nan v : forall best at_ i p,
  p < length v ->
  PrimFloat.is_nan (nth p v 0%float) = true ->
  (forall j, j < p -> PrimFloat.is_nan (nth j v 0%float) = false) ->
  Numpy.argmin_from best at_ i v = i + p.
Proof.
  induction v as [|x v IH]; intros best at_ i p Hp Hnan Hbefore; cbn in Hp; [lia|].
  cbn [Numpy.argmin_from]. destruct p as [|p].
  - cbn in Hnan. rewrite (leb_nan_r best x Hnan), Hnan. lia.
  - assert (Hx : PrimFloat.is_nan x = false) by (apply (Hbefore 0); lia).
    assert (Hrest : forall j, j < p -> PrimFloat.is_nan (nth j v 0%float) = false)
      by (intros j Hj; apply (Hbefore (S j)); lia).
    rewrite Hx. cbn in Hnan.
    destruct (PrimFloat.leb best x);
      rewrite (IH _ _ _ p) by (assumption || lia); lia.
Qed.

Lemma all_ge_nan bound v p :
  p < length v -> PrimFloat.is_nan (nth p v 0%float) = true ->
  Numpy.all_ge bound v = false.
Proof.
  unfold Numpy.all_ge.
  revert p. induction v as [|x v IH]; intros p Hp Hnan; cbn in Hp; [lia|].
  cbn [forallb]. destruct p as [|p].
  - cbn in Hnan. now rewrite (leb_nan_r bound x Hnan).
  - cbn in Hnan. rewrite (IH p) by (assumption || lia). apply andb_false_r.
Qed.

(** Lines 49-53.  A NaN among the costs makes the optimality test fail, and
    the first NaN is the entering column: a NaN cost is never optimal. *)
Theorem a_nan_cost_fails_the_test_and_enters line v w p :
  p < length v ->
  PrimFloat.is_nan (nth p v 0%float) = true ->
  (forall j, j < p -> PrimFloat.is_nan (nth j v 0%float) = false) ->
  Numpy.all_ge (PrimFloat.opp tolerance) v = false
  /\ Numpy.argmin line v w = (Returned p, w).
Proof.
  intros Hp Hnan Hbefore. split; [now apply (all_ge_nan _ v p)|].
  destruct v as [|x v]; cbn in Hp; [lia|]. cbn [Numpy.argmin].
  destruct p as [|p].
  - cbn in Hnan. now rewrite Hnan.
  - assert (Hx : PrimFloat.is_nan x = false) by (apply (Hbefore 0); lia).
    rewrite Hx. cbn in Hnan.
    rewrite (argmin_from_nan v x 0 1 p); try assumption; try lia.
    + reflexivity.
    + intros j Hj. apply (Hbefore (S j)). lia.
Qed.

(** On the costs [1, nan, -5]. *)
Lemma a_nan_cost_example :
  Numpy.all_ge (PrimFloat.opp tolerance) [1; nan; -5]%float = false
  /\ Numpy.argmin 53 [1; nan; -5]%float w_tableau = (Returned 1, w_tableau).
Proof.
  apply (a_nan_cost_fails_the_test_and_enters 53 [1; nan; -5]%float w_tableau 1).
  - cbn. lia.
  - reflexivity.
  - intros j Hj. replace j with 0 by lia. reflexivity.
Defined.

(* ------------------------------------------------------------------ *)
(** ** The outcome of solve *)

Lemma solve_maximize fuel self lc s A b dc w :
  nth_error (buffers w) lc = Some dc ->
  solve fuel self (mk_ndarray lc s) A b true w
  = solve fuel self (mk_ndarray (length (buffers w)) s) A b false
      (push w (map PrimFloat.opp dc)).
Proof.
  intro H. unfold solve, solve_locals, bind at 1 2.
  rewrite (initial_tableau_maximize _ _ _ _ _ _ H). reflexivity.
Qed.

Lemma solve_outcome_minimizing fuel self lc lA lb k m n sb dc dA db w :
  nth_error (buffers w) lc = Some dc -> length dc = k ->
  nth_error (buffers w) lA = Some dA -> length dA = m * n ->
  nth_error (buffers w) lb = Some db -> length db = Numpy.size sb ->
  fst (solve fuel self (mk_ndarray lc [k]) (mk_ndarray lA [m; n]) (mk_ndarray lb sb)
             false w)
  = if negb (Numpy.size sb =? m) then Raised (ValueError 38)
    else if negb (k =? n + 1) then Raised (ValueError 41)
    else match fuel with
         | 0 => OutOfFuel
         | S _ =>
             if Numpy.all_ge (PrimFloat.opp tolerance)
                             (firstn (n + m) (dc ++ repeat 0%float m))
             then Returned PyNone
             else OutOfFuel
         end.
Proof.
  intros Hc Lc HA LA Hb Lb.
  pose proof (initial_tableau_run lc lA lb k m n sb dc dA db w Hc HA Hb) as Hrun.
  destruct (Nat.eqb_spec (Numpy.size sb) m) as [Em|Em]; cbn [negb] in *.
  2:{ now rewrite (solve_raises_with_initial_tableau _ _ _ _ _ _ _ _ _ Hrun). }
  destruct (Nat.eqb_spec k (n + 1)) as [Ek|Ek]; cbn [negb] in *.
  2:{ now rewrite (solve_raises_with_initial_tableau _ _ _ _ _ _ _ _ _ Hrun). }
  revert Lc Hrun. rewrite Ek. intros Lc Hrun. clear Ek k. rewrite Em in Lb.
  set (w' := push (after_rows (n + 1) m n dc dA db w) (tableau_data (n + 1) m n dc dA db))
    in *.
  set (l := length (buffers (after_rows (n + 1) m n dc dA db w))) in *.
  assert (Hd : nth_error (buffers w') l = Some (tableau_data (n + 1) m n dc dA db))
    by apply lookup_new.
  pose proof (tableau_data_length m n dc dA db Lc LA Lb) as Hlen.
  pose proof (costs_of_tableau_data m n dc dA db Lc LA Lb) as Hcosts.
  destruct fuel as [|fuel].
  - unfold solve. erewrite bind_out_of_fuel; [reflexivity|].
    rewrite (solve_locals_enters_loop _ _ _ _ _ _ _ _ _ _ Hrun). reflexivity.
  - rewrite <- Hcosts.
    destruct (Numpy.all_ge _ (costs_of _ _ _)) eqn:Etest.
    + unfold solve. erewrite bind_returned; [reflexivity|].
      rewrite (solve_locals_enters_loop _ _ _ _ _ _ _ _ _ _ Hrun).
      apply (pivot_loop_exit w' l (m + 1) (n + m + 1) _ Hd Hlen); [lia | exact Etest].
    + rewrite (solve_spins _ _ _ _ _ _ _ _ _ _ _ _ _ Hrun Hd Hlen); [reflexivity | lia | exact Etest].
Qed.

(** What solve does with a vector c of k entries, an m x n matrix A and a b
    of any shape: ValueError at line 38 when b has not m entries, else
    ValueError at line 41 unless c has n+1 entries; else it returns None
    when the first n+m cells of the cost row (c, negated when maximize is
    set, followed by m zeros) are all >= -1e-10, and never comes to an end
    otherwise.  It never raises anything else. *)
Theorem solve_outcome fuel self lc lA lb k m n sb dc dA db maximize w :
  nth_error (buffers w) lc = Some dc -> length dc = k ->
  nth_error (buffers w) lA = Some dA -> length dA = m * n ->
  nth_error (buffers w) lb = Some db -> length db = Numpy.size sb ->
  fst (solve fuel self (mk_ndarray lc [k]) (mk_ndarray lA [m; n]) (mk_ndarray lb sb)
             maximize w)
  = if negb (Numpy.size sb =? m) then Raised (ValueError 38)
    else if negb (k =? n + 1) then Raised (ValueError 41)
    else match fuel with
         | 0 => OutOfFuel
         | S _ =>
             if Numpy.all_ge (PrimFloat.opp tolerance)
                  (firstn (n + m)
                     ((if maximize then map PrimFloat.opp dc else dc)
                        ++ repeat 0%float m))
             then Returned PyNone
             else OutOfFuel
         end.
Proof.
  intros Hc Lc HA LA Hb Lb. destruct maximize.
  - rewrite (solve_maximize _ _ _ _ _ _ _ _ Hc).
    apply solve_outcome_minimizing with (dA := dA) (db := db);
      try assumption; try lookup.
    now rewrite length_map.
  - now apply solve_outcome_minimizing with (dA := dA) (db := db).
Qed.

(** With c=[3,2,0] on the A and b of Scenario 1, maximizing, and fuel 3. *)
Lemma solve_outcome_example :
  fst (solve 3 0 (vec 0 3) (mat 1 3 2) (vec 2 3) true w1_long)
  = if negb (Numpy.size [3] =? 3) then Raised (ValueError 38)
    else if negb (3 =? 2 + 1) then Raised (ValueError 41)
    else if Numpy.all_ge (PrimFloat.opp tolerance)
              (firstn (2 + 3) (map PrimFloat.opp [3; 2; 0]%float ++ repeat 0%float 3))
         then Returned PyNone
         else OutOfFuel.
Proof.
  apply (solve_outcome 3 0 0 1 2 3 3 2 [3] [3; 2; 0]%float
           [1; 1; 1; 0; 0; 1]%float [4; 2; 3]%float true w1_long); reflexivity.
Defined.

(* ------------------------------------------------------------------ *)
(** ** Arguments of the wrong rank *)

(** Line 31.  When A is not two-dimensional, unpacking A.shape raises
    ValueError, whatever c and b are. *)
Theorem A_must_be_two_dimensional fuel self lc sc lA sA b dc maximize w :
  nth_error (buffers w) lc = Some dc ->
  length sA <> 2 ->
  fst (solve fuel self (mk_ndarray lc sc) (mk_ndarray lA sA) b maximize w)
  = Raised (ValueError 31).
Proof.
  intros Hc HA.
  assert (Hmin : forall c0 w0,
             fst (solve fuel self c0 (mk_ndarray lA sA) b false w0)
             = Raised (ValueError 31)).
  { intros c0 w0. apply solve_raises_fst. unfold initial_tableau.
    rewrite bind_ret. unfold bind, unpack_shape; cbn [a_shape].
    destruct sA as [|x [|y [|z rest]]]; cbn in HA; try reflexivity. lia. }
  destruct maximize.
  - rewrite (solve_maximize _ _ _ _ _ _ _ _ Hc). apply Hmin.
  - apply Hmin.
Qed.

(** With a vector [1,-1] for A. *)
Lemma A_must_be_two_dimensional_example :
  fst (solve 3 0 (vec 0 2) (vec 1 2) (vec 2 1) true w2) = Raised (ValueError 31).
Proof.
  apply (A_must_be_two_dimensional 3 0 0 [2] 1 [2] (vec 2 1) [1; 1]%float true w2).
  - reflexivity.
  - cbn. lia.
Defined.

Lemma hstack_matrix_and_vector line l1 l2 s m w :
  2 <= length s ->
  Numpy.hstack line [mk_ndarray l1 s; mk_ndarray l2 [m]] w
  = (Raised (ValueError line), w).
Proof.
  intro H. destruct s as [|x [|y rest]]; cbn in H; try lia.
  unfold Numpy.hstack, Numpy.concatenate. cbn.
  now rewrite Nat.eqb_refl.
Qed.

(** Line 33.  When c has two dimensions or more (A being a matrix), the
    hstack of c with zeros(m) raises ValueError, whatever b is. *)
Theorem c_must_be_a_vector fuel self lc sc lA m n b dc dA maximize w :
  nth_error (buffers w) lc = Some dc ->
  nth_error (buffers w) lA = Some dA ->
  2 <= length sc ->
  fst (solve fuel self (mk_ndarray lc sc) (mk_ndarray lA [m; n]) b maximize w)
  = Raised (ValueError 33).
Proof.
  intros Hc HA Hsc.
  assert (Hmin : forall lc0 w0,
             nth_error (buffers w0) lA = Some dA ->
             fst (solve fuel self (mk_ndarray lc0 sc) (mk_ndarray lA [m; n]) b false w0)
             = Raised (ValueError 33)).
  { intros lc0 w0 HA0. apply solve_raises_fst. unfold initial_tableau.
    rewrite bind_ret. run_with unpack_shape_run.
    run_with eye_run. run_with hstack_2d. run_with zeros_run.
    erewrite bind_raised; [reflexivity|].
    now apply hstack_matrix_and_vector. }
  destruct maximize.
  - rewrite (solve_maximize _ _ _ _ _ _ _ _ Hc). apply Hmin. lookup.
  - now apply Hmin.
Qed.

(** With the 1 x 2 matrix [[1,1]] for c. *)
Lemma c_must_be_a_vector_example :
  fst (solve 3 0 (mat 0 1 2) (mat 1 1 2) (vec 2 1) true w2) = Raised (ValueError 33).
Proof.
  apply (c_must_be_a_vector 3 0 0 [1; 2] 1 1 2 (vec 2 1) [1; 1]%float [1; -1]%float
           true w2).
  - reflexivity.
  - reflexivity.
  - cbn. lia.
Defined.

(* ------------------------------------------------------------------ *)
(** ** The solver object *)

Create HintDb blind.

Lemma blind_ret {A} (a : A) : store_blind (ret a).
Proof. intros w1 w2 H. now split. Qed.

Lemma blind_raise {A} e : store_blind (@raise A e).
Proof. intros w1 w2 H. now split. Qed.

Lemma blind_out_of_fuel {A} : store_blind (@out_of_fuel A).
Proof. intros w1 w2 H. now split. Qed.

Lemma blind_fault {A} : store_blind (fun w => (@Fault A, w)).
Proof. intros w1 w2 H. now split. Qed.

Lemma blind_bind {A B} (m : M A) (k : A -> M B) :
  store_blind m -> (forall a, store_blind (k a)) -> store_blind (bind m k).
Proof.
  intros Hm Hk w1 w2 H. unfold bind. specialize (Hm w1 w2 H).
  destruct (m w1) as [o1 w1'], (m w2) as [o2 w2']; cbn in Hm.
  destruct Hm as [<- Hb]. destruct o1; cbn; auto. now apply Hk.
Qed.

Lemma blind_load a : store_blind (load a).
Proof.
  intros w1 w2 H. unfold load. rewrite H.
  destruct (nth_error _ _); now split.
Qed.

Lemma blind_alloc d : store_blind (alloc d).
Proof. intros w1 w2 H. unfold alloc, push; cbn. now rewrite H. Qed.

#[export] Hint Resolve blind_ret blind_raise blind_out_of_fuel blind_fault
  blind_load blind_alloc : blind.

Ltac blind_steps :=
  repeat first
    [ progress auto with blind
    | apply blind_bind; [ | intros ? ]
    | match goal with
      | |- store_blind (match ?x with _ => _ end) => destruct x
      | |- store_blind (if ?x then _ else _) => destruct x
      end ].

Lemma blind_warn l : store_blind (warn l).
Proof. intros w1 w2 H. now split. Qed.

#[export] Hint Resolve blind_warn : blind.

Lemma blind_load_all arrs : store_blind (load_all arrs).
Proof. induction arrs; cbn; blind_steps. Qed.

#[export] Hint Resolve blind_load_all : blind.

Lemma blind_concatenate line arrs axis : store_blind (Numpy.concatenate line arrs axis).
Proof. unfold Numpy.concatenate, new_array. blind_steps. Qed.

#[export] Hint Resolve blind_concatenate : blind.

Lemma blind_item line t i j : store_blind (item line t i j).
Proof. unfold item. blind_steps. Qed.

#[export] Hint Resolve blind_item : blind.

Lemma blind_ratio_rows rows t e : forall ratios, store_blind (ratio_rows rows t e ratios).
Proof.
  induction rows; intros; cbn; unfold item_last, Numpy.true_divide; blind_steps.
Qed.

#[export] Hint Resolve blind_ratio_rows : blind.

Lemma blind_pivot_loop fuel m t : forall it, store_blind (pivot_loop fuel m t it).
Proof.
  induction fuel; intros; cbn; unfold objective_row, Numpy.argmin; blind_steps.
Qed.

#[export] Hint Resolve blind_pivot_loop : blind.

Lemma blind_solve fuel self c A b maximize : store_blind (solve fuel self c A b maximize).
Proof.
  unfold solve, solve_locals, initial_tableau, unpack_shape, Numpy.negative,
    Numpy.eye, Numpy.zeros, Numpy.hstack, Numpy.vstack, new_array.
  blind_steps.
Qed.

(** Lines 11-12 and solve.  SimplexSolver(verbose) followed by solve: the
    flag is on the new object when solve is over, and another flag would
    have given the same outcome, the same buffers and the same output. *)
Theorem verbose_is_stored_and_never_read verbose other fuel c A b maximize w :
  let run flag := bind (SimplexSolver_init flag)
                       (fun self => solve fuel self c A b maximize) w in
  nth_error (solvers (snd (run verbose))) (length (solvers w))
  = Some (mk_SimplexSolver verbose)
  /\ fst (run verbose) = fst (run other)
  /\ buffers (snd (run verbose)) = buffers (snd (run other))
  /\ stdout (snd (run verbose)) = stdout (snd (run other)).
Proof.
  cbv zeta. unfold bind at 1 2 3 5 6 7, SimplexSolver_init.
  cbv beta iota.
  set (w1 := mk_world (buffers w) (solvers w ++ [mk_SimplexSolver verbose]) (stdout w)
                      (warnings w)).
  set (w2 := mk_world (buffers w) (solvers w ++ [mk_SimplexSolver other]) (stdout w)
                      (warnings w)).
  assert (F1 : frame_safe (solve fuel (length (solvers w)) c A b maximize))
    by (unfold solve; frame_steps).
  destruct (F1 w1) as [_ [S1 O1]]. destruct (F1 w2) as [_ [_ O2]].
  destruct (blind_solve fuel (length (solvers w)) c A b maximize w1 w2 eq_refl)
    as [Ho Hb].
  repeat split.
  - rewrite S1. cbn. rewrite nth_error_app2, Nat.sub_diag by lia. reflexivity.
  - exact Ho.
  - exact Hb.
  - now rewrite O1, O2.
Qed.
